(** * The MESH generic receiver

    A shallow embedding of [examples/receivers/generic-receiver.py]: the
    webhook endpoint that decodes a MESH envelope, logs it, keeps it in a
    bounded inbox, hands it to an optional handler process and routes the
    handler's answer back to the sender.

    Layout: Python values and the operations the receiver applies to them
    ([Py]); the outside world the receiver talks to ([World]); the
    receiver itself ([Receiver]); a JSON reader and writer and a UTF-8
    decoder used to run the receiver on concrete requests ([Json],
    [Demo]); the start-up code ([Main]); then the properties. *)

From Stdlib Require Import String Ascii List ZArith Bool Arith Lia DecimalString.
Import ListNotations.
Set Warnings "-register-all".
Local Open Scope list_scope.
Local Open Scope string_scope.

(** ** Python values *)

Module Py.

(** What [json.loads] returns: [None], [bool], [int], [float], [str],
    [list] and [dict] (insertion ordered, keys are strings).  A float is
    carried as the text [repr] gives for it, which is also what
    [json.dumps] and [str] print; the receiver only ever tests a float for
    zero.  Characters of a [string] stand for code points. *)
Inductive json : Type :=
| JNull
| JBool (b : bool)
| JInt (n : Z)
| JFloat (repr : string)
| JStr (s : string)
| JList (items : list json)
| JDict (items : list (string * json)).

(** Exceptions, by class, with the message [str(e)] prints. *)
Inductive exn : Type :=
| AttributeError (msg : string)
| TypeError (msg : string)
| KeyError (msg : string)
| OtherError (class msg : string).

Definition exn_str (e : exn) : string :=
  match e with
  | AttributeError m | TypeError m | KeyError m | OtherError _ m => m
  end.

(** A computation that returns or raises. *)
Inductive result (A : Type) : Type :=
| Return (a : A)
| Raise (e : exn).
Arguments Return {A} a.
Arguments Raise {A} e.

(** What [json.loads] does with a text: it returns the value, raises
    [json.JSONDecodeError], or raises something else (RecursionError on
    text that is nested too deep, ValueError on an integer of too many
    digits).  Only the second is caught by [except json.JSONDecodeError]. *)
Inductive loaded : Type :=
| Loaded (v : json)
| JSONDecodeError
| LoadsError (e : exn).

Definition rbind {A B} (c : result A) (k : A -> result B) : result B :=
  match c with
  | Return a => k a
  | Raise e => Raise e
  end.

(** [bool(v)]: the test of [if v] and of [v and ...]. *)
Definition truthy (v : json) : bool :=
  match v with
  | JNull => false
  | JBool b => b
  | JInt n => negb (n =? 0)%Z
  | JFloat r => negb ((r =? "0.0") || (r =? "-0.0"))
  | JStr s => negb (s =? "")
  | JList l => match l with [] => false | _ :: _ => true end
  | JDict d => match d with [] => false | _ :: _ => true end
  end.

Definition type_name (v : json) : string :=
  match v with
  | JNull => "NoneType"
  | JBool _ => "bool"
  | JInt _ => "int"
  | JFloat _ => "float"
  | JStr _ => "str"
  | JList _ => "list"
  | JDict _ => "dict"
  end.

Fixpoint lookup (k : string) (d : list (string * json)) : option json :=
  match d with
  | [] => None
  | (k', v) :: d' => if k =? k' then Some v else lookup k d'
  end.

(** [v.get(k, default)]; only a dict has the method. *)
Definition get (v : json) (k : string) (default : json) : result json :=
  match v with
  | JDict d =>
      Return (match lookup k d with Some x => x | None => default end)
  | _ =>
      Raise (AttributeError
               ("'" ++ type_name v ++ "' object has no attribute 'get'"))
  end.

(** [v[k]] with a string key. *)
Definition subscript (v : json) (k : string) : result json :=
  match v with
  | JDict d =>
      match lookup k d with
      | Some x => Return x
      | None => Raise (KeyError ("'" ++ k ++ "'"))
      end
  | JStr _ => Raise (TypeError "string indices must be integers, not 'str'")
  | JList _ =>
      Raise (TypeError "list indices must be integers or slices, not str")
  | _ => Raise (TypeError ("'" ++ type_name v ++ "' object is not subscriptable"))
  end.

Fixpoint take (n : nat) (s : string) : string :=
  match n, s with
  | S n', String c s' => String c (take n' s')
  | _, _ => ""
  end.

(** [v[:n]]: a prefix of a str or of a list; a dict cannot hash the slice
    (from Python 3.12 on it raises KeyError instead), the other values are
    not subscriptable. *)
Definition slice_to (n : nat) (v : json) : result json :=
  match v with
  | JStr s => Return (JStr (take n s))
  | JList l => Return (JList (firstn n l))
  | JDict _ => Raise (TypeError "unhashable type: 'slice'")
  | _ => Raise (TypeError ("'" ++ type_name v ++ "' object is not subscriptable"))
  end.

(** [v == s] for a str literal [s]. *)
Definition eq_str (v : json) (s : string) : bool :=
  match v with
  | JStr s' => s' =? s
  | _ => false
  end.

(** [str.isspace] on one character (code points up to U+00FF). *)
Definition is_space (c : ascii) : bool :=
  let n := nat_of_ascii c in
  (((9 <=? n) && (n <=? 13)) || ((28 <=? n) && (n <=? 32))
   || (n =? 133) || (n =? 160))%nat.

Fixpoint lstrip (s : string) : string :=
  match s with
  | String c s' => if is_space c then lstrip s' else s
  | EmptyString => ""
  end.

Fixpoint rstrip (s : string) : string :=
  match s with
  | String c s' =>
      match rstrip s' with
      | EmptyString => if is_space c then "" else String c ""
      | r => String c r
      end
  | EmptyString => ""
  end.

(** [s.strip()] *)
Definition strip (s : string) : string := rstrip (lstrip s).

Definition str_of_Z (n : Z) : string := NilZero.string_of_int (Z.to_int n).

(** [str(v)], which is what an f-string field prints.  A str prints as
    itself; [repr] stands for Python's rendering of floats and of
    containers. *)
Definition str (repr : json -> string) (v : json) : string :=
  match v with
  | JNull => "None"
  | JBool true => "True"
  | JBool false => "False"
  | JInt n => str_of_Z n
  | JStr s => s
  | _ => repr v
  end.

(** JSON text is written with ['] for the double quote: [q] puts the
    double quotes back. *)
Fixpoint q (s : string) : string :=
  match s with
  | EmptyString => EmptyString
  | String c s' =>
      String (if Ascii.eqb c "'" then ascii_of_nat 34 else c) (q s')
  end.

Definition nl : string := String (ascii_of_nat 10) EmptyString.

Fixpoint ends_with_slash (s : string) : bool :=
  match s with
  | EmptyString => false
  | String c EmptyString => Ascii.eqb c "/"
  | String _ s' => ends_with_slash s'
  end.

(** [os.path.join(a, b)] for a relative [b]. *)
Definition path_join (a b : string) : string :=
  if (a =? "") || ends_with_slash a then a ++ b else a ++ "/" ++ b.

(** [bytes.hex()]: two lower-case digits per byte, high nibble first. *)
Definition hex_digit (b3 b2 b1 b0 : bool) : ascii :=
  match b3, b2, b1, b0 with
  | false, false, false, false => "0"
  | false, false, false, true => "1"
  | false, false, true, false => "2"
  | false, false, true, true => "3"
  | false, true, false, false => "4"
  | false, true, false, true => "5"
  | false, true, true, false => "6"
  | false, true, true, true => "7"
  | true, false, false, false => "8"
  | true, false, false, true => "9"
  | true, false, true, false => "a"
  | true, false, true, true => "b"
  | true, true, false, false => "c"
  | true, true, false, true => "d"
  | true, true, true, false => "e"
  | true, true, true, true => "f"
  end%char.

Fixpoint hex (bytes : string) : string :=
  match bytes with
  | EmptyString => ""
  | String (Ascii b0 b1 b2 b3 b4 b5 b6 b7) rest =>
      String (hex_digit b7 b6 b5 b4) (String (hex_digit b3 b2 b1 b0) (hex rest))
  end.

Definition hex_char (n : nat) : ascii :=
  if (n <? 10)%nat then ascii_of_nat (48 + n) else ascii_of_nat (87 + n).

Definition hex2 (c : ascii) : string :=
  let n := nat_of_ascii c in
  String (hex_char (n / 16)) (String (hex_char (n mod 16)) EmptyString).

Fixpoint contains (c : ascii) (s : string) : bool :=
  match s with
  | EmptyString => false
  | String c' s' => Ascii.eqb c c' || contains c s'
  end.

Definition repr_char (quote c : ascii) : string :=
  let n := nat_of_ascii c in
  if Ascii.eqb c quote || Ascii.eqb c "\" then String "\" (String c EmptyString)
  else if (n =? 9)%nat then "\t"
  else if (n =? 10)%nat then "\n"
  else if (n =? 13)%nat then "\r"
  else if ((n <? 32) || ((127 <=? n) && (n <=? 160)) || (n =? 173))%nat
       then "\x" ++ hex2 c
  else String c EmptyString.

Fixpoint repr_chars (quote : ascii) (s : string) : string :=
  match s with
  | EmptyString => EmptyString
  | String c s' => repr_char quote c ++ repr_chars quote s'
  end.

(** [repr] of a str: single quotes, unless the text has a single quote
    and no double quote. *)
Definition repr_str (s : string) : string :=
  let dq := ascii_of_nat 34 in
  let quote := if contains "'" s && negb (contains dq s) then dq else "'"%char in
  String quote (repr_chars quote s ++ String quote EmptyString).

Definition is_digit (c : ascii) : bool :=
  ((48 <=? nat_of_ascii c) && (nat_of_ascii c <=? 57))%nat.

(** The white space [int] skips around the digits: tab to carriage
    return and the space, and of the characters above U+007F those that
    [str.isspace] accepts.  U+001C to U+001F, which [str.strip] removes,
    are not skipped. *)
Definition is_int_space (c : ascii) : bool :=
  let n := nat_of_ascii c in
  (((9 <=? n) && (n <=? 13)) || (n =? 32) || (n =? 133) || (n =? 160))%nat.

Fixpoint int_lstrip (s : string) : string :=
  match s with
  | String c s' => if is_int_space c then int_lstrip s' else s
  | EmptyString => ""
  end.

(** The digits [int] scans, with single underscores between them: their
    value, how many they are, and what follows them.  [after_digit] tells
    whether the last character was a digit. *)
Fixpoint int_scan (acc : Z) (count : nat) (after_digit : bool) (s : string)
  : option (Z * nat * string) :=
  match s with
  | EmptyString => if after_digit then Some (acc, count, s) else None
  | String c s' =>
      if is_digit c
      then int_scan (10 * acc + Z.of_nat (nat_of_ascii c - 48))%Z (S count) true s'
      else if Ascii.eqb c "_"
           then (if after_digit then int_scan acc count false s' else None)
           else (if after_digit then Some (acc, count, s) else None)
  end.

(** [int(s)] for a str, as Python 3.11 and later read it: white space
    around, an optional sign, digits; more than 4300 digits are
    refused. *)
Definition int (s : string) : result Z :=
  let invalid := OtherError "ValueError"
                   ("invalid literal for int() with base 10: " ++ repr_str s) in
  let magnitude (digits : string) : result Z :=
    match int_scan 0 0 false digits with
    | None => Raise invalid
    | Some (n, count, rest) =>
        if (4300 <? count)%nat then
          Raise (OtherError "ValueError"
                   ("Exceeds the limit (4300 digits) for integer string conversion: value has "
                    ++ str_of_Z (Z.of_nat count)
                    ++ " digits; use sys.set_int_max_str_digits() to increase the limit"))
        else if int_lstrip rest =? "" then Return n
        else Raise invalid
    end in
  match int_lstrip s with
  | String c rest =>
      if Ascii.eqb c "-" then rbind (magnitude rest) (fun n => Return (- n)%Z)
      else if Ascii.eqb c "+" then magnitude rest
      else magnitude (String c rest)
  | EmptyString => Raise invalid
  end.

End Py.

(** ** The world outside the process *)

Module World.
Import Py.

(** The argument of [urllib.request.Request]. *)
Record http_request : Type := {
  req_url : json;
  req_data : string;
  req_headers : list (string * string);
  req_method : string
}.

(** What [do_POST] finds on the connection: the value of the
    Content-Length header, if the client sent one, and the bytes that
    follow the headers. *)
Record posted : Type := {
  content_length : option string;
  rfile : string
}.

(** What [subprocess.run] comes back with: a finished process, or an
    exception (the program cannot be started, or the timeout expired). *)
Inductive completed : Type :=
| Completed (returncode : Z) (stdout : string)
| NotCompleted (e : exn).

(** Every call that leaves the process, with the answer it got.  An
    outcome [None] means the call returned, [Some e] that it raised. *)
Inductive event : Type :=
| Clock (stamp : string)
| Urandom (n : nat) (bytes : string)
| Stdout (line : string)
| Stderr (line : string)
| Makedirs (path : string) (outcome : option exn)
| Append (path text : string) (outcome : option exn)
| Run (argv : list string) (input : string) (timeout : Z) (outcome : completed)
| UrlOpen (req : http_request) (timeout : Z) (outcome : option exn).

(** The module-level configuration read from the environment, the [json]
    library and the UTF-8 codec, and the answers of the operating system,
    each as a function of everything that happened before (newest event
    first). *)
Record Env : Type := {
  MESH_HOME : string;
  MESH_AGENT : string;
  HANDLER : option string;
  utf8_decode : string -> result string;  (* bytes.decode("utf-8") *)
  json_loads : string -> loaded;
  json_dumps : json -> string;
  py_repr : json -> string;
  now_utc : list event -> string;         (* strftime of datetime.now(utc) *)
  os_urandom : list event -> nat -> string;
  os_makedirs : list event -> string -> option exn;
  file_append : list event -> string -> string -> option exn;
  subprocess_run : list event -> list string -> string -> Z -> completed;
  urlopen : list event -> http_request -> Z -> option exn
}.

(** The mutable state of the process: the module-level inbox list (oldest
    first) and the trace of its calls (newest first). *)
Record state : Type := {
  message_inbox : list json;
  trace : list event
}.

Definition init : state := {| message_inbox := []; trace := [] |}.

(** Statements run on the state; an exception leaves the state as it was
    when it was raised. *)
Definition M (A : Type) : Type := state -> result A * state.

Definition ret {A} (a : A) : M A := fun st => (Return a, st).

Definition throw {A} (e : exn) : M A := fun st => (Raise e, st).

Definition bind {A B} (c : M A) (k : A -> M B) : M B :=
  fun st =>
    match c st with
    | (Return a, st') => k a st'
    | (Raise e, st') => (Raise e, st')
    end.

Definition lift {A} (r : result A) : M A := fun st => (r, st).

(** [try: c  except Exception as e: h e] *)
Definition try_except {A} (c : M A) (h : exn -> M A) : M A :=
  fun st =>
    match c st with
    | (Return a, st') => (Return a, st')
    | (Raise e, st') => h e st'
    end.

Definition emit (e : event) : M unit :=
  fun st => (Return tt, {| message_inbox := message_inbox st;
                           trace := e :: trace st |}).

Definition outcome (o : option exn) : M unit :=
  match o with
  | None => ret tt
  | Some e => throw e
  end.

Definition clock (env : Env) : M string :=
  fun st => let t := now_utc env (trace st) in bind (emit (Clock t)) (fun _ => ret t) st.

Definition urandom (env : Env) (n : nat) : M string :=
  fun st =>
    let b := os_urandom env (trace st) n in
    bind (emit (Urandom n b)) (fun _ => ret b) st.

Definition makedirs (env : Env) (path : string) : M unit :=
  fun st =>
    let o := os_makedirs env (trace st) path in
    bind (emit (Makedirs path o)) (fun _ => outcome o) st.

Definition append_file (env : Env) (path text : string) : M unit :=
  fun st =>
    let o := file_append env (trace st) path text in
    bind (emit (Append path text o)) (fun _ => outcome o) st.

Definition run (env : Env) (argv : list string) (input : string) (timeout : Z)
  : M (Z * string) :=
  fun st =>
    let o := subprocess_run env (trace st) argv input timeout in
    bind (emit (Run argv input timeout o))
         (fun _ => match o with
                   | Completed rc out => ret (rc, out)
                   | NotCompleted e => throw e
                   end) st.

Definition http_open (env : Env) (req : http_request) (timeout : Z) : M unit :=
  fun st =>
    let o := urlopen env (trace st) req timeout in
    bind (emit (UrlOpen req timeout o)) (fun _ => outcome o) st.

Definition print_out (line : string) : M unit := emit (Stdout line).
Definition print_err (line : string) : M unit := emit (Stderr line).

End World.

Declare Scope py_scope.
Delimit Scope py_scope with py.
Notation "x <- c ;; k" := (World.bind c (fun x => k))
  (at level 100, c at next level, right associativity) : py_scope.
Notation "c ;; k" := (World.bind c (fun _ => k))
  (at level 100, right associativity) : py_scope.
Notation "x <~ c ;; k" := (Py.rbind c (fun x => k))
  (at level 100, c at next level, right associativity) : py_scope.

(** ** The receiver *)

Module Receiver.
Import Py World.
Local Open Scope py_scope.

Section WithEnv.
Variable env : Env.

(** [LOG_FILE = os.path.join(MESH_HOME, "logs", "mesh-audit.jsonl")];
    [LOG_DIR] is its [os.path.dirname]. *)
Definition LOG_DIR : string := path_join (MESH_HOME env) "logs".
Definition LOG_FILE : string := path_join LOG_DIR "mesh-audit.jsonl".

Definition MAX_INBOX : nat := 100.

Definition fmt (v : json) : string := str (py_repr env) v.

(** The dict built by [log_message]. *)
Definition audit_entry (ts : string) (envelope : json) (status : string)
  : result json :=
  from <~ get envelope "from" (JStr "?") ;;
  to <~ get envelope "to" (JStr (MESH_AGENT env)) ;;
  type <~ get envelope "type" (JStr "?") ;;
  id <~ get envelope "id" (JStr "?") ;;
  payload <~ get envelope "payload" (JDict []) ;;
  subject <~ get payload "subject" (JStr "") ;;
  Return (JDict [("ts", JStr ts); ("from", from); ("to", to); ("type", type);
                 ("id", id); ("subject", subject); ("status", JStr status)]).

(** [log_message(envelope, status)]: append to the audit log; whatever goes
    wrong is dropped. *)
Definition log_message (envelope : json) (status : string) : M unit :=
  try_except
    (makedirs env LOG_DIR ;;
     ts <- clock env ;;
     entry <- lift (audit_entry ts envelope status) ;;
     append_file env LOG_FILE (json_dumps env entry ++ nl))
    (fun _ => ret tt).

(** What [dispatch_to_handler] makes of a finished handler run, inside
    its outer [try]: only [JSONDecodeError] is caught by the inner one. *)
Definition handler_response (returncode : Z) (stdout : string) : result json :=
  if (returncode =? 0)%Z && negb (strip stdout =? "") then
    match json_loads env (strip stdout) with
    | Loaded v => Return v
    | JSONDecodeError => Return (JDict [("body", JStr (strip stdout))])
    | LoadsError e => Raise e
    end
  else Return JNull.

(** [dispatch_to_handler(envelope)]: Python's [None] is [JNull]. *)
Definition dispatch_to_handler (envelope : json) : M json :=
  match HANDLER env with
  | None => ret JNull
  | Some handler =>
      if handler =? "" then ret JNull
      else
        try_except
          (res <- run env [handler] (json_dumps env envelope) 30 ;;
           lift (handler_response (fst res) (snd res)))
          (fun e =>
             print_err ("[MESH] Handler error: " ++ exn_str e) ;;
             ret JNull)
  end.

(** The dict [_send_reply] builds before it enters its [try]. *)
Definition reply_envelope (id_bytes ts : string) (original response : json)
  : result json :=
  to <~ get original "from" (JStr "?") ;;
  correlation <~ get original "id" JNull ;;
  context <~ get original "replyContext" JNull ;;
  payload <~ get original "payload" (JDict []) ;;
  subject <~ get payload "subject" (JStr "") ;;
  body <~ get response "body" (JStr (json_dumps env response)) ;;
  Return (JDict [("protocol", JStr "mesh/1.0");
                 ("id", JStr ("msg_" ++ hex id_bytes));
                 ("timestamp", JStr ts);
                 ("from", JStr (MESH_AGENT env));
                 ("to", to);
                 ("type", JStr "response");
                 ("correlationId", correlation);
                 ("replyContext", context);
                 ("payload", JDict [("subject", JStr ("Re: " ++ fmt subject));
                                    ("body", body)])]).

(** The request [_send_reply] posts. *)
Definition reply_request (reply : json) (reply_to : json) : result http_request :=
  url <~ subscript reply_to "url" ;;
  token <~ get reply_to "token" (JStr "") ;;
  Return {| req_url := url;
            req_data := json_dumps env (JDict [("message", JStr (json_dumps env reply))]);
            req_headers := [("Content-Type", "application/json");
                            ("Authorization", "Bearer " ++ fmt token)];
            req_method := "POST" |}.

(** [self._send_reply(original, response, reply_to)] *)
Definition _send_reply (original response reply_to : json) : M unit :=
  id_bytes <- urandom env 16 ;;
  ts <- clock env ;;
  reply <- lift (reply_envelope id_bytes ts original response) ;;
  try_except
    (req <- lift (reply_request reply reply_to) ;;
     http_open env req 10 ;;
     sender <- lift (get original "from" JNull) ;;
     print_out ("[MESH] Reply sent to " ++ fmt sender))
    (fun e => print_err ("[MESH] Reply failed: " ++ exn_str e)).

(** [do_POST], "Extract MESH envelope": an exception of [json.loads]
    other than [JSONDecodeError] is not caught. *)
Definition extract_envelope (data : json) : result json :=
  message_raw <~ get data "message" (JStr "") ;;
  match message_raw with
  | JStr text =>
      match json_loads env text with
      | Loaded envelope => Return envelope
      | JSONDecodeError =>
          Return (JDict [("payload", JDict [("body", message_raw)])])
      | LoadsError e => Raise e
      end
  | _ => Return message_raw
  end.

(** [do_POST], "Log it": the locals read from the envelope. *)
Record summary : Type := {
  msg_id : json;
  sender : json;
  msg_type : json;
  subject : json;
  body_text : json
}.

Definition read_summary (envelope : json) : result summary :=
  id <~ get envelope "id" (JStr "?") ;;
  from <~ get envelope "from" (JStr "?") ;;
  type <~ get envelope "type" (JStr "?") ;;
  payload1 <~ get envelope "payload" (JDict []) ;;
  subj <~ get payload1 "subject" (JStr "") ;;
  payload2 <~ get envelope "payload" (JDict []) ;;
  text <~ get payload2 "body" (JStr "") ;;
  Return {| msg_id := id; sender := from; msg_type := type;
            subject := subj; body_text := text |}.

(** The separator of the line printed on receipt, with the bytes the
    source file has for it. *)
Definition arrow : string := " â†’ ".

(** The line printed on receipt. *)
Definition console_line (s : summary) : result string :=
  shown <~ slice_to 60 (subject s) ;;
  Return ("[MESH] " ++ fmt (sender s) ++ arrow ++ MESH_AGENT env ++ " | "
          ++ fmt (msg_type s) ++ " | " ++ fmt shown).

(** [do_POST], "Store in inbox". *)
Definition inbox_push (inbox : list json) (envelope : json) : list json :=
  let appended := (inbox ++ [envelope])%list in
  if (MAX_INBOX <? length appended)%nat then tl appended else appended.

Definition store_in_inbox (envelope : json) : M unit :=
  fun st => (Return tt, {| message_inbox := inbox_push (message_inbox st) envelope;
                           trace := trace st |}).

(** [do_POST], "Send response back via replyTo if this was a request". *)
Definition send_response_back (envelope response type : json) : M unit :=
  if truthy response && eq_str type "request" then
    reply_to <- lift (get envelope "replyTo" (JDict [])) ;;
    if truthy reply_to then
      url <- lift (get reply_to "url" JNull) ;;
      if truthy url then _send_reply envelope response reply_to
      else ret tt
    else ret tt
  else ret tt.

(** What the handler writes back: status line, the headers it adds itself,
    body. *)
Record http_response : Type := {
  status : nat;
  headers : list (string * string);
  body : string
}.

Definition bad_request : http_response :=
  {| status := 400; headers := []; body := q "{'error':'invalid JSON'}" |}.

(** [do_POST], "Acknowledge receipt". *)
Definition acknowledge (id : json) : http_response :=
  {| status := 202;
     headers := [("Content-Type", "application/json")];
     body := json_dumps env (JDict [("ok", JBool true); ("id", id)]) |}.

(** [self.rfile.read(n)]: up to [n] bytes of what the client sends, all
    of it when [n] is negative. *)
Definition read (n : Z) (bytes : string) : string :=
  if (n <? 0)%Z then bytes else take (Z.to_nat n) bytes.

(** [do_POST], its first two lines: the body as text.  Both the [int] of
    the header and the decoding stand before the [try]. *)
Definition read_body (incoming : posted) : result string :=
  n <~ match content_length incoming with
       | Some value => int value
       | None => Return 0%Z
       end ;;
  utf8_decode env (read n (rfile incoming)).

(** [do_POST].  An exception that leaves it is caught by the socket
    server, which closes the connection: no response is written. *)
Definition do_POST (incoming : posted) : M http_response :=
  request_body <- lift (read_body incoming) ;;
  match json_loads env request_body with
  | JSONDecodeError => ret bad_request
  | LoadsError e => throw e
  | Loaded data =>
      envelope <- lift (extract_envelope data) ;;
      s <- lift (read_summary envelope) ;;
      line <- lift (console_line s) ;;
      print_out line ;;
      log_message envelope "received" ;;
      store_in_inbox envelope ;;
      response <- dispatch_to_handler envelope ;;
      send_response_back envelope response (msg_type s) ;;
      ret (acknowledge (msg_id s))
  end.

(** [do_GET]: [/inbox], [/health], anything else is 404. *)
Definition do_GET (path : string) : M http_response :=
  fun st =>
    let count := JInt (Z.of_nat (length (message_inbox st))) in
    if path =? "/inbox" then
      (Return {| status := 200;
                 headers := [("Content-Type", "application/json")];
                 body := json_dumps env
                           (JDict [("messages", JList (message_inbox st));
                                   ("count", count)]) |}, st)
    else if path =? "/health" then
      (Return {| status := 200;
                 headers := [("Content-Type", "application/json")];
                 body := json_dumps env
                           (JDict [("status", JStr "ok");
                                   ("agent", JStr (MESH_AGENT env));
                                   ("inbox", count)]) |}, st)
    else (Return {| status := 404; headers := []; body := "" |}, st).

Inductive request : Type :=
| POST (incoming : posted)
| GET (path : string).

Definition handle (r : request) : M http_response :=
  match r with
  | POST b => do_POST b
  | GET p => do_GET p
  end.

(** [serve_forever]: the requests one after the other on the same process
    state; a request that raises is dropped and the server goes on. *)
Definition serve (requests : list request) (st : state) : state :=
  fold_left (fun st r => snd (handle r st)) requests st.

End WithEnv.

(** [not HANDLER] is false. *)
Definition handler_configured (env : Env) : bool :=
  match HANDLER env with
  | Some handler => negb (handler =? "")
  | None => false
  end.

(** The request is decoded up to the point where the receiver has
    printed its line: the body is read as text, the outer JSON parses, the
    envelope is extracted and its fields are read without an exception. *)
Definition decodes (env : Env) (incoming : posted) (envelope : json)
    (s : summary) : Prop :=
  exists request_body data line,
    read_body env incoming = Return request_body /\
    json_loads env request_body = Loaded data /\
    extract_envelope env data = Return envelope /\
    read_summary envelope = Return s /\
    console_line env s = Return line.

(** From [before] to [after] the process kept its inbox and added the
    events [new] (newest first) to its trace. *)
Definition added (before after : state) (new : list event) : Prop :=
  message_inbox after = message_inbox before /\
  trace after = (new ++ trace before)%list.

Definition is_run (e : event) : bool :=
  match e with Run _ _ _ _ => true | _ => false end.

Definition is_urandom (e : event) : bool :=
  match e with Urandom _ _ => true | _ => false end.

Definition is_urlopen (e : event) : bool :=
  match e with UrlOpen _ _ _ => true | _ => false end.

Definition is_append (e : event) : bool :=
  match e with Append _ _ _ => true | _ => false end.

(** [_send_reply] was entered: it is the only place that draws from
    [os.urandom], and it does so before anything else. *)
Definition reply_attempted (new : list event) : Prop :=
  existsb is_urandom new = true.

(** The reply request went out to [urlopen]. *)
Definition reply_posted (new : list event) : Prop :=
  existsb is_urlopen new = true.

(** [envelope.replyTo.url] is there and counts as true ([None], [""], [0]
    and the like do not). *)
Definition reply_url_present (envelope : json) : Prop :=
  exists reply_to url,
    get envelope "replyTo" (JDict []) = Return (JDict reply_to) /\
    lookup "url" reply_to = Some url /\
    truthy url = true.

(** What [log_message] adds to the trace when it starts from [history]:
    it stops at [makedirs], or at a field it cannot read, or it appends
    the line. *)
Definition logged (env : Env) (envelope : json) (status : string)
    (history new : list event) : Prop :=
  (exists e, os_makedirs env history (LOG_DIR env) = Some e /\
             new = [Makedirs (LOG_DIR env) (Some e)])
  \/ (exists ts e, audit_entry env ts envelope status = Raise e /\
                   new = [Clock ts; Makedirs (LOG_DIR env) None])
  \/ (exists ts entry o,
        audit_entry env ts envelope status = Return entry /\
        new = [Append (LOG_FILE env) (json_dumps env entry ++ nl) o;
               Clock ts; Makedirs (LOG_DIR env) None]).

(** What [dispatch_to_handler] returns and adds to the trace. *)
Definition dispatched (env : Env) (envelope : json) (history : list event)
    (response : json) (new : list event) : Prop :=
  (handler_configured env = false /\ response = JNull /\ new = [])
  \/ (exists handler,
        HANDLER env = Some handler /\ handler_configured env = true /\
        let input := json_dumps env envelope in
        let o := subprocess_run env history [handler] input 30 in
        match o with
        | Completed rc out =>
            match handler_response env rc out with
            | Return v => response = v /\ new = [Run [handler] input 30 o]
            | Raise e =>
                response = JNull /\
                new = [Stderr ("[MESH] Handler error: " ++ exn_str e);
                       Run [handler] input 30 o]
            end
        | NotCompleted e =>
            response = JNull /\
            new = [Stderr ("[MESH] Handler error: " ++ exn_str e);
                   Run [handler] input 30 o]
        end).

(** What [_send_reply] returns and adds to the trace. *)
Definition replied (env : Env) (original response reply_to : json)
    (history : list event) (r : result unit) (new : list event) : Prop :=
  exists ts,
    let id_bytes := os_urandom env history 16 in
    (exists e, reply_envelope env id_bytes ts original response = Raise e /\
               r = Raise e /\ new = [Clock ts; Urandom 16 id_bytes])
    \/ (exists reply,
          reply_envelope env id_bytes ts original response = Return reply /\
          r = Return tt /\
          ((exists e, reply_request env reply reply_to = Raise e /\
                      new = [Stderr ("[MESH] Reply failed: " ++ exn_str e);
                             Clock ts; Urandom 16 id_bytes])
           \/ (exists req o text,
                 reply_request env reply reply_to = Return req /\
                 (new = [Stdout text; UrlOpen req 10 o; Clock ts;
                         Urandom 16 id_bytes]
                  \/ new = [Stderr text; UrlOpen req 10 o; Clock ts;
                            Urandom 16 id_bytes])))).

(** The three conditions under which [do_POST] calls [_send_reply]. *)
Definition reply_due (envelope response type : json) : Prop :=
  eq_str type "request" = true /\
  truthy response = true /\
  reply_url_present envelope.

(** What the reply step of [do_POST] returns and adds to the trace. *)
Definition routed (env : Env) (envelope response type : json)
    (history : list event) (r : result unit) (new : list event) : Prop :=
  (truthy response && eq_str type "request" = false /\
   r = Return tt /\ new = [])
  \/ (truthy response && eq_str type "request" = true /\
      ~ reply_url_present envelope /\ new = [])
  \/ (reply_due envelope response type /\
      exists reply_to,
        get envelope "replyTo" (JDict []) = Return reply_to /\
        replied env envelope response reply_to history r new).

End Receiver.

(** ** A JSON reader and writer

    [loads] and [dumps] follow [json.loads] and [json.dumps] (default
    options) on JSON text whose numbers are integers and whose characters
    are code points up to U+00FF.  Text outside that fragment (a number
    with a fraction or an exponent, [NaN], [Infinity], a [\u] escape above
    U+00FF) is not read: [loads] answers [JSONDecodeError] on it. *)

Module Json.
Import Py.

Definition is_ws (c : ascii) : bool :=
  Ascii.eqb c " " || (nat_of_ascii c =? 9)%nat
  || (nat_of_ascii c =? 10)%nat || (nat_of_ascii c =? 13)%nat.

Fixpoint skip_ws (s : string) : string :=
  match s with
  | String c s' => if is_ws c then skip_ws s' else s
  | EmptyString => EmptyString
  end.

Definition hex_value (c : ascii) : option nat :=
  let n := nat_of_ascii c in
  if ((48 <=? n) && (n <=? 57))%nat then Some (n - 48)
  else if ((97 <=? n) && (n <=? 102))%nat then Some (n - 87)
  else if ((65 <=? n) && (n <=? 70))%nat then Some (n - 55)
  else None.

Definition unescape (c : ascii) : option ascii :=
  if Ascii.eqb c "b" then Some (ascii_of_nat 8)
  else if Ascii.eqb c "f" then Some (ascii_of_nat 12)
  else if Ascii.eqb c "n" then Some (ascii_of_nat 10)
  else if Ascii.eqb c "r" then Some (ascii_of_nat 13)
  else if Ascii.eqb c "t" then Some (ascii_of_nat 9)
  else if Ascii.eqb c "/" then Some c
  else if Ascii.eqb c "\" then Some c
  else if (nat_of_ascii c =? 34)%nat then Some c
  else None.

Definition push (c : ascii) (r : option (string * string))
  : option (string * string) :=
  match r with
  | Some (t, rest) => Some (String c t, rest)
  | None => None
  end.

(** The text of a string literal, read from just after its opening quote. *)
Fixpoint scan_string (s : string) : option (string * string) :=
  match s with
  | EmptyString => None
  | String c s1 =>
      if (nat_of_ascii c =? 34)%nat then Some (EmptyString, s1)
      else if Ascii.eqb c "\" then
        match s1 with
        | String e s2 =>
            if Ascii.eqb e "u" then
              match s2 with
              | String h1 (String h2 (String h3 (String h4 s3))) =>
                  match hex_value h1, hex_value h2, hex_value h3, hex_value h4 with
                  | Some 0%nat, Some 0%nat, Some a, Some b =>
                      push (ascii_of_nat (16 * a + b)) (scan_string s3)
                  | _, _, _, _ => None
                  end
              | _ => None
              end
            else
              match unescape e with
              | Some c' => push c' (scan_string s2)
              | None => None
              end
        | EmptyString => None
        end
      else if (nat_of_ascii c <? 32)%nat then None
      else push c (scan_string s1)
  end.

(** What the scanner makes of the text in front of it: a value and the
    text after it, a syntax error ([JSONDecodeError]), or another
    exception. *)
Inductive scanned : Type :=
| Scanned (v : json) (rest : string)
| Rejected
| Failed (e : exn).

Fixpoint scan_digits (acc : Z) (count : nat) (s : string) : Z * nat * string :=
  match s with
  | String c s' =>
      if is_digit c
      then scan_digits (10 * acc + Z.of_nat (nat_of_ascii c - 48))%Z (S count) s'
      else (acc, count, s)
  | EmptyString => (acc, count, s)
  end.

(** The integer part of a number, [0] or digits that do not start with
    [0], with its sign applied by [int]: more than 4300 digits are refused
    there with a plain ValueError (Python 3.11 and later). *)
Definition scan_integer (negative : bool) (s : string) : scanned :=
  let signed (n : Z) : json := JInt (if negative then (- n)%Z else n) in
  match s with
  | String c s' =>
      if Ascii.eqb c "0" then Scanned (signed 0%Z) s'
      else if is_digit c then
        match scan_digits 0 0 s with
        | (n, count, rest) =>
            if (4300 <? count)%nat then
              Failed (OtherError "ValueError"
                        ("Exceeds the limit (4300 digits) for integer string conversion: value has "
                         ++ str_of_Z (Z.of_nat count)
                         ++ " digits; use sys.set_int_max_str_digits() to increase the limit"))
            else Scanned (signed n) rest
        end
      else Rejected
  | EmptyString => Rejected
  end.

Definition starts_with (p s : string) : option string :=
  if prefix p s then Some (substring (String.length p) (String.length s - String.length p) s)
  else None.

(** [d[k] = v] on an insertion-ordered dict. *)
Fixpoint dict_set (d : list (string * json)) (k : string) (v : json)
  : list (string * json) :=
  match d with
  | [] => [(k, v)]
  | (k', v') :: d' =>
      if k =? k' then (k', v) :: d' else (k', v') :: dict_set d' k v
  end.

Definition dict_of (pairs : list (string * json)) : list (string * json) :=
  fold_left (fun d p => dict_set d (fst p) (snd p)) pairs [].

Definition too_deep (what : string) : exn :=
  OtherError "RecursionError"
    ("maximum recursion depth exceeded while decoding a JSON " ++ what
     ++ " from a unicode string").

(** The scanner.  [room] is the number of arrays and objects that may
    still be opened inside one another: opening one more raises
    RecursionError. *)
Fixpoint scan_once (fuel room : nat) (s : string) : scanned :=
  match fuel with
  | O => Rejected
  | S fuel' =>
      match s with
      | EmptyString => Rejected
      | String c s' =>
          if (nat_of_ascii c =? 34)%nat then
            match scan_string s' with
            | Some (t, rest) => Scanned (JStr t) rest
            | None => Rejected
            end
          else if Ascii.eqb c "{" then
            match room with
            | O => Failed (too_deep "object")
            | S room' =>
                match skip_ws s' with
                | String c1 r1 =>
                    if Ascii.eqb c1 "}" then Scanned (JDict []) r1
                    else scan_members fuel' room' (String c1 r1) []
                | EmptyString => Rejected
                end
            end
          else if Ascii.eqb c "[" then
            match room with
            | O => Failed (too_deep "array")
            | S room' =>
                match skip_ws s' with
                | String c1 r1 =>
                    if Ascii.eqb c1 "]" then Scanned (JList []) r1
                    else scan_items fuel' room' (String c1 r1) []
                | EmptyString => Rejected
                end
            end
          else if Ascii.eqb c "-" then scan_integer true s'
          else if is_digit c then scan_integer false s
          else
            match starts_with "null" s, starts_with "true" s, starts_with "false" s with
            | Some rest, _, _ => Scanned JNull rest
            | _, Some rest, _ => Scanned (JBool true) rest
            | _, _, Some rest => Scanned (JBool false) rest
            | _, _, _ => Rejected
            end
      end
  end

with scan_items (fuel room : nat) (s : string) (seen : list json) : scanned :=
  match fuel with
  | O => Rejected
  | S fuel' =>
      match scan_once fuel' room s with
      | Scanned v rest =>
          match skip_ws rest with
          | String c r =>
              if Ascii.eqb c "]" then Scanned (JList (rev (v :: seen))) r
              else if Ascii.eqb c ","
                   then scan_items fuel' room (skip_ws r) (v :: seen)
                   else Rejected
          | EmptyString => Rejected
          end
      | Rejected => Rejected
      | Failed e => Failed e
      end
  end

with scan_members (fuel room : nat) (s : string) (seen : list (string * json))
  : scanned :=
  match fuel with
  | O => Rejected
  | S fuel' =>
      match s with
      | String c0 s0 =>
          if (nat_of_ascii c0 =? 34)%nat then
            match scan_string s0 with
            | Some (k, rest) =>
                match skip_ws rest with
                | String c1 r1 =>
                    if Ascii.eqb c1 ":" then
                      match scan_once fuel' room (skip_ws r1) with
                      | Scanned v rest' =>
                          match skip_ws rest' with
                          | String c2 r2 =>
                              if Ascii.eqb c2 "}" then
                                Scanned (JDict (dict_of (rev ((k, v) :: seen)))) r2
                              else if Ascii.eqb c2 "," then
                                scan_members fuel' room (skip_ws r2) ((k, v) :: seen)
                              else Rejected
                          | EmptyString => Rejected
                          end
                      | Rejected => Rejected
                      | Failed e => Failed e
                      end
                    else Rejected
                | EmptyString => Rejected
                end
            | None => Rejected
            end
          else Rejected
      | EmptyString => Rejected
      end
  end.

(** [json.loads(s)]: one value, white space around it, nothing else.
    [limit] is the depth of nesting the interpreter has room for. *)
Definition loads (limit : nat) (s : string) : loaded :=
  match scan_once (2 * String.length s + 2) limit (skip_ws s) with
  | Scanned v rest =>
      match skip_ws rest with
      | EmptyString => Loaded v
      | String _ _ => JSONDecodeError
      end
  | Rejected => JSONDecodeError
  | Failed e => LoadsError e
  end.

(** [ensure_ascii] escaping of one character. *)
Definition escape (c : ascii) : string :=
  let n := nat_of_ascii c in
  if (n =? 34)%nat then String "\" (String c EmptyString)
  else if (n =? 92)%nat then "\\"
  else if (n =? 8)%nat then "\b"
  else if (n =? 12)%nat then "\f"
  else if (n =? 10)%nat then "\n"
  else if (n =? 13)%nat then "\r"
  else if (n =? 9)%nat then "\t"
  else if ((n <? 32) || (126 <? n))%nat then "\u00" ++ hex2 c
  else String c EmptyString.

Fixpoint escape_all (s : string) : string :=
  match s with
  | EmptyString => EmptyString
  | String c s' => escape c ++ escape_all s'
  end.

Definition quote (s : string) : string :=
  let dq := String (ascii_of_nat 34) EmptyString in
  dq ++ escape_all s ++ dq.

Definition dumps_float (repr : string) : string :=
  if repr =? "nan" then "NaN"
  else if repr =? "inf" then "Infinity"
  else if repr =? "-inf" then "-Infinity"
  else repr.

(** [json.dumps(v)] *)
Fixpoint dumps (v : json) : string :=
  match v with
  | JNull => "null"
  | JBool true => "true"
  | JBool false => "false"
  | JInt n => str_of_Z n
  | JFloat r => dumps_float r
  | JStr s => quote s
  | JList l => "[" ++ String.concat ", " (map dumps l) ++ "]"
  | JDict d =>
      "{" ++ String.concat ", " (map (fun p => quote (fst p) ++ ": " ++ dumps (snd p)) d)
      ++ "}"
  end.

End Json.

(** ** A world to run the receiver in *)

Module Demo.
Import Py World.

(** [repr(v)] *)
Fixpoint repr (v : json) : string :=
  match v with
  | JNull => "None"
  | JBool true => "True"
  | JBool false => "False"
  | JInt n => str_of_Z n
  | JFloat r => r
  | JStr s => repr_str s
  | JList l => "[" ++ String.concat ", " (map repr l) ++ "]"
  | JDict d =>
      "{" ++ String.concat ", " (map (fun p => repr_str (fst p) ++ ": " ++ repr (snd p)) d)
      ++ "}"
  end.

Fixpoint bytes_of (n : nat) (c : ascii) : string :=
  match n with
  | O => EmptyString
  | S n' => String c (bytes_of n' c)
  end.

Definition undecodable (byte : ascii) (position : nat) (reason : string) : exn :=
  OtherError "UnicodeDecodeError"
    ("'utf-8' codec can't decode byte 0x" ++ hex2 byte ++ " in position "
     ++ str_of_Z (Z.of_nat position) ++ ": " ++ reason).

(** [bytes.decode("utf-8")] for text of code points up to U+00FF: a byte
    below 0x80 stands for itself, and 0xC2 or 0xC3 with a continuation
    byte for U+0080 to U+00FF.  The lead byte of a longer sequence is
    outside that fragment and is refused like a byte that cannot start a
    sequence. *)
Fixpoint decode_from (position : nat) (bytes : string) : result string :=
  match bytes with
  | EmptyString => Return EmptyString
  | String b rest =>
      let n := nat_of_ascii b in
      if (n <? 128)%nat then
        (text <~ decode_from (S position) rest ;; Return (String b text))%py
      else if ((n =? 194) || (n =? 195))%nat then
        match rest with
        | String b' rest' =>
            let n' := nat_of_ascii b' in
            if ((128 <=? n') && (n' <=? 191))%nat then
              (text <~ decode_from (S (S position)) rest' ;;
               Return (String (ascii_of_nat (64 * (n - 192) + (n' - 128))) text))%py
            else Raise (undecodable b position "invalid continuation byte")
        | EmptyString => Raise (undecodable b position "unexpected end of data")
        end
      else Raise (undecodable b position "invalid start byte")
  end.

Definition decode (bytes : string) : result string := decode_from 0 bytes.

(** Text nested deeper than an interpreter reads: 100000 opening
    brackets. *)
Definition deep : string := bytes_of (100 * 1000) "[".

(** [sys.getrecursionlimit()] as the interpreter starts with it; the depth
    of JSON a given interpreter reads before it raises RecursionError is
    of this order. *)
Definition recursion_limit : nat := 1000.

(** A process with the given handler setting, whose handler runs always
    end the same way; the file system and the network accept every call,
    the clock stands still and the entropy source answers with bytes that
    count the events so far. *)
Definition world (handler : option string) (handler_run : completed) : Env :=
  {| MESH_HOME := "/home/mesh/.mesh";
     MESH_AGENT := "atlas";
     HANDLER := handler;
     utf8_decode := decode;
     json_loads := Json.loads recursion_limit;
     json_dumps := Json.dumps;
     py_repr := repr;
     now_utc := fun _ => "2025-06-01T12:00:00.000Z";
     os_urandom := fun history n => bytes_of n (ascii_of_nat (length history));
     os_makedirs := fun _ _ => None;
     file_append := fun _ _ _ => None;
     subprocess_run := fun _ _ _ _ => handler_run;
     urlopen := fun _ _ _ => None |}.

(** No handler configured (inbox mode). *)
Definition inbox_mode : Env := world None (Completed 0 EmptyString).

(** A handler that prints [out] and exits with [code]. *)
Definition with_handler (code : Z) (out : string) : Env :=
  world (Some "./handler.sh") (Completed code out).

(** The request of a client that sends [bytes] and announces their
    number. *)
Definition post (bytes : string) : posted :=
  {| content_length := Some (str_of_Z (Z.of_nat (String.length bytes)));
     rfile := bytes |}.

(** The request that carries the envelope [{"id": n}]. *)
Definition numbered (n : nat) : posted :=
  post (q "{'message': {'id': " ++ str_of_Z (Z.of_nat n) ++ "}}").

Definition numbered_envelope (n : nat) : json :=
  JDict [("id", JInt (Z.of_nat n))].

End Demo.

(** ** Start-up *)

Module Main.
Import Py Receiver.

(** The loop of [main] over [sys.argv[1:]]: an argument ["--port"] that
    is not the last one sets the port to the [int] of the next one. *)
Fixpoint parse_port (args : list string) (port : Z) : result Z :=
  match args with
  | [] => Return port
  | arg :: rest =>
      if arg =? "--port" then
        match rest with
        | next :: _ => p <~ int next ;; parse_port rest p
        | [] => parse_port rest port
        end
      else parse_port rest port
  end%py.

(** The port [main] listens on. *)
Definition port (args : list string) : result Z := parse_port args 8900.

(** The requests of a run that are POSTs. *)
Definition is_post (r : request) : bool :=
  match r with
  | POST _ => true
  | GET _ => false
  end.

End Main.

(** * Properties *)

Import Py World Receiver.
Local Open Scope py_scope.

(** ** What each step of [do_POST] does *)

Ltac rbind_inv H :=
  repeat match type of H with
         | rbind ?c _ = Return _ =>
             let E := fresh "E" in
             destruct c eqn:E; cbn [rbind] in H; [|discriminate H]
         end.

Lemma log_message_cases env envelope status st :
  exists st' new,
    log_message env envelope status st = (Return tt, st') /\
    added st st' new /\
    logged env envelope status (trace st) new.
Proof.
  unfold log_message, try_except, bind, makedirs, clock, append_file, emit,
    outcome, lift, ret, throw, added, logged; cbn.
  destruct (os_makedirs env (trace st) (LOG_DIR env)) eqn:Hmk; cbn.
  - eexists _, [_]; repeat split. left. eexists; split; reflexivity.
  - destruct (audit_entry env _ envelope status) eqn:Hentry; cbn.
    + match goal with
      | |- context [file_append ?e ?t ?p ?x] => destruct (file_append e t p x) eqn:Hap
      end; cbn;
        (eexists _, [_; _; _]; repeat split; right; right;
         do 3 eexists; split; [eassumption | reflexivity]).
    + eexists _, [_; _]; repeat split. right; left.
      do 2 eexists; split; [eassumption | reflexivity].
Qed.

Lemma dispatch_cases env envelope st :
  exists response st' new,
    dispatch_to_handler env envelope st = (Return response, st') /\
    added st st' new /\
    dispatched env envelope (trace st) response new.
Proof.
  unfold dispatch_to_handler, dispatched, handler_configured, added.
  destruct (HANDLER env) as [handler|] eqn:Hh.
  2:{ exists JNull, st, []. repeat split. left. repeat split. }
  destruct (handler =? "") eqn:Hempty.
  { exists JNull, st, []. repeat split. left. repeat split. }
  unfold try_except, bind, run, emit, print_err, ret, throw; cbn.
  destruct (subprocess_run env (trace st) [handler] (json_dumps env envelope) 30)
    as [rc out | e] eqn:Hrun; cbn.
  - unfold lift.
    destruct (handler_response env rc out) as [v | e] eqn:Hresp; cbn.
    + eexists _, _, [_]; repeat split. right. exists handler. repeat split.
      cbn. rewrite Hrun, Hresp. split; reflexivity.
    + eexists _, _, [_; _]; repeat split. right. exists handler. repeat split.
      cbn. rewrite Hrun, Hresp. split; reflexivity.
  - eexists _, _, [_; _]; repeat split. right. exists handler. repeat split.
    cbn. rewrite Hrun. split; reflexivity.
Qed.

Lemma send_reply_cases env original response reply_to st :
  exists r st' new,
    _send_reply env original response reply_to st = (r, st') /\
    added st st' new /\
    replied env original response reply_to (trace st) r new.
Proof.
  unfold _send_reply, replied, added, try_except, bind, urandom, clock,
    http_open, print_out, print_err, emit, outcome, lift, ret, throw; cbn.
  destruct (reply_envelope env _ _ original response) as [reply | e] eqn:Hreply; cbn.
  2:{ eexists _, _, [_; _]; repeat split. eexists. left.
      eexists; repeat split; eassumption. }
  destruct (reply_request env reply reply_to) as [req | e] eqn:Hreq; cbn.
  2:{ eexists _, _, [_; _; _]; repeat split. eexists. right.
      eexists; repeat split; [eassumption|]. left.
      eexists; split; [eassumption | reflexivity]. }
  match goal with
  | |- context [urlopen ?e ?t ?rq ?n] => destruct (urlopen e t rq n) eqn:Hopen
  end; cbn.
  - eexists _, _, [_; _; _; _]; repeat split. eexists. right.
    eexists; repeat split; [eassumption|]. right.
    do 3 eexists; split; [eassumption | right; reflexivity].
  - destruct (get original "from" JNull); cbn;
      (eexists _, _, [_; _; _; _]; repeat split; eexists; right;
       eexists; repeat split; [eassumption|]; right;
       do 3 eexists; split; [eassumption|]);
      [left | right]; reflexivity.
Qed.

Lemma get_lookup v k default x :
  get v k default = Return x ->
  exists d, v = JDict d /\
            x = match lookup k d with Some y => y | None => default end.
Proof.
  destruct v; cbn; try discriminate.
  intros H; injection H as <-. eexists; split; reflexivity.
Qed.

Lemma send_response_back_cases env envelope response type st :
  exists r st' new,
    send_response_back env envelope response type st = (r, st') /\
    added st st' new /\
    routed env envelope response type (trace st) r new.
Proof.
  unfold send_response_back, routed, reply_due, reply_url_present.
  destruct (truthy response && eq_str type "request") eqn:Hgate.
  2:{ exists (Return tt), st, []. repeat split. left. repeat split. }
  apply andb_true_iff in Hgate as (Hresp & Htype).
  unfold bind, lift.
  destruct (get envelope "replyTo" (JDict [])) as [reply_to | e] eqn:Hto.
  2:{ exists (Raise e), st, []. repeat split. right; left. repeat split.
      intros (? & ? & H & _); discriminate. }
  destruct (truthy reply_to) eqn:Htruthy.
  2:{ exists (Return tt), st, []. repeat split. right; left. repeat split.
      intros (d & u & H & Hu & _). injection H as ->.
      destruct d; cbn in *; discriminate. }
  destruct (get reply_to "url" JNull) as [url | e] eqn:Hurl.
  2:{ exists (Raise e), st, []. repeat split. right; left. repeat split.
      intros (d & u & H & _). injection H as ->. discriminate. }
  destruct (truthy url) eqn:Hu.
  2:{ exists (Return tt), st, []. repeat split. right; left. repeat split.
      intros (d & u & H & Hl & Ht). injection H as ->.
      cbn in Hurl. rewrite Hl in Hurl. injection Hurl as ->. congruence. }
  destruct (send_reply_cases env envelope response reply_to st)
    as (r & st' & new & Hrun & Hadd & Hrep).
  exists r, st', new. repeat split; try apply Hadd; [assumption|].
  right; right. split.
  - repeat split; try assumption. apply get_lookup in Hurl as (d & -> & Hx).
    exists d, url. repeat split; [|assumption].
    destruct (lookup "url" d); subst; [reflexivity | discriminate].
  - exists reply_to. split; [reflexivity | assumption].
Qed.

(** A decoded request goes through every step; only the reply step can
    still raise. *)
Lemma do_POST_decoded env incoming envelope s st :
  decodes env incoming envelope s ->
  exists line log_new response run_new r reply_new st',
    console_line env s = Return line /\
    do_POST env incoming st =
      (match r with
       | Return _ => Return (acknowledge env (msg_id s))
       | Raise e => Raise e
       end, st') /\
    message_inbox st' = inbox_push (message_inbox st) envelope /\
    trace st' = (reply_new ++ run_new ++ log_new ++ Stdout line :: trace st)%list /\
    logged env envelope "received" (Stdout line :: trace st) log_new /\
    dispatched env envelope (log_new ++ Stdout line :: trace st) response run_new /\
    routed env envelope response (msg_type s)
      (run_new ++ log_new ++ Stdout line :: trace st) r reply_new.
Proof.
  intros (request_body & data & line & Hread & Hloads & Hext & Hsum & Hline).
  unfold do_POST. unfold bind at 1, lift. rewrite Hread, Hloads.
  unfold bind at 1. rewrite Hext.
  unfold bind at 1. rewrite Hsum.
  unfold bind at 1. rewrite Hline.
  unfold bind at 1, print_out, emit.
  unfold bind at 1.
  match goal with
  | |- context [log_message ?e ?v ?t ?x] =>
      destruct (log_message_cases e v t x) as (st1 & log_new & -> & (Hi1 & Ht1) & Hlog)
  end.
  unfold bind at 1, store_in_inbox.
  unfold bind at 1.
  match goal with
  | |- context [dispatch_to_handler ?e ?v ?x] =>
      destruct (dispatch_cases e v x) as (response & st2 & run_new & -> & (Hi2 & Ht2) & Hrun)
  end.
  unfold bind at 1.
  match goal with
  | |- context [send_response_back ?e ?v ?a ?b ?x] =>
      destruct (send_response_back_cases e v a b x)
        as (r & st3 & reply_new & -> & (Hi3 & Ht3) & Hroute)
  end.
  cbn in *.
  exists line, log_new, response, run_new, r, reply_new, st3.
  rewrite Ht2, Ht1 in Hroute. rewrite Ht1 in Hrun.
  repeat split; try assumption.
  - destruct r; reflexivity.
  - rewrite Hi3, Hi2, Hi1. reflexivity.
  - rewrite Ht3, Ht2, Ht1. reflexivity.
Qed.

(** Body text on which [json.loads] raises [JSONDecodeError] is answered
    with 400 and nothing else happens. *)
Lemma invalid_json_short env incoming request_body st :
  read_body env incoming = Return request_body ->
  json_loads env request_body = JSONDecodeError ->
  do_POST env incoming st = (Return bad_request, st).
Proof.
  intros Hread H. unfold do_POST, bind, lift. rewrite Hread, H. reflexivity.
Qed.

(** A request that is not decoded and is not answered with 400 raises at
    once. *)
Lemma do_POST_undecoded env incoming st :
  (forall request_body, read_body env incoming = Return request_body ->
                        json_loads env request_body <> JSONDecodeError) ->
  (forall envelope s, ~ decodes env incoming envelope s) ->
  exists e, do_POST env incoming st = (Raise e, st).
Proof.
  intros Hnot Hno. unfold do_POST. unfold bind, lift.
  destruct (read_body env incoming) as [request_body|e] eqn:Hread; [|eauto].
  specialize (Hnot request_body eq_refl).
  destruct (json_loads env request_body) as [data| |e] eqn:Hloads;
    [|congruence|unfold throw; eauto].
  destruct (extract_envelope env data) as [envelope|e] eqn:Hext; [|eauto].
  destruct (read_summary envelope) as [s|e] eqn:Hsum; [|eauto].
  destruct (console_line env s) as [line|e] eqn:Hline; [|eauto].
  exfalso. apply (Hno envelope s). exists request_body, data, line. auto.
Qed.

(** Every request falls in one of three classes: its body is text that
    [json.loads] rejects with [JSONDecodeError]; it is decoded; or neither,
    and then [do_POST] raises before it does anything. *)
Lemma do_POST_classes env incoming :
  (exists request_body, read_body env incoming = Return request_body /\
                        json_loads env request_body = JSONDecodeError)
  \/ ((forall request_body, read_body env incoming = Return request_body ->
                            json_loads env request_body <> JSONDecodeError) /\
      forall envelope s, ~ decodes env incoming envelope s)
  \/ (exists envelope s, decodes env incoming envelope s).
Proof.
  destruct (read_body env incoming) as [request_body|e] eqn:Hread.
  2:{ right; left. split; [discriminate|].
      intros ? ? (b & d & l & Hb & _). congruence. }
  destruct (json_loads env request_body) as [data| |e] eqn:Hloads.
  2:{ left. eauto. }
  2:{ right; left. split; [intros b [= <-]; congruence|].
      intros ? ? (b & d & l & Hb & Hd & _). congruence. }
  right.
  assert (Hnot : forall b, Return request_body = Return b ->
                           json_loads env b <> JSONDecodeError)
    by (intros b [= <-]; congruence).
  destruct (extract_envelope env data) as [envelope|e] eqn:Hext.
  2:{ left. split; [exact Hnot|].
      intros ? ? (b & d & l & Hb & Hd & He & _). congruence. }
  destruct (read_summary envelope) as [s|e] eqn:Hsum.
  2:{ left. split; [exact Hnot|].
      intros ? ? (b & d & l & Hb & Hd & He & Hs & _). congruence. }
  destruct (console_line env s) as [line|e] eqn:Hline.
  2:{ left. split; [exact Hnot|].
      intros ? ? (b & d & l & Hb & Hd & He & Hs & Hl). congruence. }
  right. exists envelope, s, request_body, data, line. auto.
Qed.

(** An envelope that is not an object stops [do_POST] at its first
    [envelope.get], in any environment. *)
Lemma non_object_envelope_raises env incoming request_body data envelope st :
  read_body env incoming = Return request_body ->
  json_loads env request_body = Loaded data ->
  extract_envelope env data = Return envelope ->
  (forall fields, envelope <> JDict fields) ->
  do_POST env incoming st
  = (Raise (AttributeError
              ("'" ++ type_name envelope ++ "' object has no attribute 'get'")),
     st).
Proof.
  intros Hread Hloads Hext Hshape. unfold do_POST.
  unfold bind at 1, lift. rewrite Hread, Hloads.
  unfold bind at 1. rewrite Hext.
  destruct envelope; try reflexivity.
  exfalso. eapply Hshape. reflexivity.
Qed.

(** A response that is not an object stops [_send_reply] at
    [response.get], before its [try], in any environment. *)
Lemma non_object_response_raises env envelope s response reply_to st :
  read_summary envelope = Return s ->
  (forall fields, response <> JDict fields) ->
  exists st',
    _send_reply env envelope response reply_to st
    = (Raise (AttributeError
                ("'" ++ type_name response ++ "' object has no attribute 'get'")),
       st').
Proof.
  intros Hsum Hshape. unfold read_summary in Hsum.
  destruct envelope; try discriminate Hsum.
  cbn [get rbind] in Hsum. rbind_inv Hsum.
  unfold _send_reply, reply_envelope, bind, urandom, clock, emit, lift, ret.
  cbn [get rbind]. rewrite E.
  destruct response; cbn; try (eexists; reflexivity).
  exfalso. eapply Hshape. reflexivity.
Qed.

(** ** The claims *)

(** C8.  The receiver at bodies that are not valid JSON and get no 400.
    A body that is not UTF-8, the single byte 0xFF, raises
    UnicodeDecodeError where the body is decoded, before the [try]; a body
    of 100000 opening brackets makes [json.loads] raise RecursionError,
    which [except json.JSONDecodeError] does not catch.  Each time
    [do_POST] raises and no response is written; nothing is logged, stored
    or run.  The body [not json] is answered with 400. *)
Theorem invalid_body_can_raise :
  let not_utf8 := Demo.post (String (ascii_of_nat 255) EmptyString) in
  let too_deep := Demo.deep in
  do_POST Demo.inbox_mode not_utf8 init
    = (Raise (OtherError "UnicodeDecodeError"
                "'utf-8' codec can't decode byte 0xff in position 0: invalid start byte"),
       init) /\
  read_body Demo.inbox_mode (Demo.post too_deep) = Return too_deep /\
  do_POST Demo.inbox_mode (Demo.post too_deep) init
    = (Raise (OtherError "RecursionError"
                "maximum recursion depth exceeded while decoding a JSON array from a unicode string"),
       init) /\
  do_POST Demo.inbox_mode (Demo.post "not json") init = (Return bad_request, init) /\
  status bad_request = 400.
Proof. cbv zeta. repeat split; vm_compute; reflexivity. Qed.

(** C2.  The receiver at requests whose outer body is valid JSON and whose
    [message] is a number, [null], a list, or a string holding the JSON
    text of a number, and at an outer body that is a JSON list: each time
    [do_POST] raises AttributeError before anything is logged or stored,
    and no response is written. *)
Theorem valid_json_message_can_raise :
  json_loads Demo.inbox_mode (q "{'message': 42}")
    = Loaded (JDict [("message", JInt 42)]) /\
  do_POST Demo.inbox_mode (Demo.post (q "{'message': 42}")) init
    = (Raise (AttributeError "'int' object has no attribute 'get'"), init) /\
  do_POST Demo.inbox_mode (Demo.post (q "{'message': null}")) init
    = (Raise (AttributeError "'NoneType' object has no attribute 'get'"), init) /\
  do_POST Demo.inbox_mode (Demo.post (q "{'message': [1, 2]}")) init
    = (Raise (AttributeError "'list' object has no attribute 'get'"), init) /\
  do_POST Demo.inbox_mode (Demo.post (q "{'message': '7'}")) init
    = (Raise (AttributeError "'int' object has no attribute 'get'"), init) /\
  do_POST Demo.inbox_mode (Demo.post "[1, 2]") init
    = (Raise (AttributeError "'list' object has no attribute 'get'"), init).
Proof. repeat split; vm_compute; reflexivity. Qed.

(** C1.  The receiver at a request-type envelope with [replyTo.url], with
    a handler that exits with 0: when the handler prints the JSON list
    [[1]], [do_POST] runs the handler, enters [_send_reply] and raises
    AttributeError there, so no 202 is written; when the handler prints
    the JSON object [{"body": "ok"}] the same request is acknowledged. *)
Theorem handler_list_output_breaks_ack :
  let incoming :=
    Demo.post (q "{'message': {'id': 'm2', 'from': 'a', 'type': 'request', 'replyTo': {'url': 'http://a/hook'}}}") in
  let broken := do_POST (Demo.with_handler 0 "[1]") incoming init in
  let fine := do_POST (Demo.with_handler 0 (q "{'body': 'ok'}")) incoming init in
  fst broken = Raise (AttributeError "'list' object has no attribute 'get'") /\
  existsb is_run (trace (snd broken)) = true /\
  reply_attempted (trace (snd broken)) /\
  ~ reply_posted (trace (snd broken)) /\
  fst fine = Return {| status := 202;
                       headers := [("Content-Type", "application/json")];
                       body := q "{'ok': true, 'id': 'm2'}" |} /\
  reply_posted (trace (snd fine)).
Proof.
  cbv zeta. repeat split; try (vm_compute; reflexivity).
  vm_compute. discriminate.
Qed.

(** *** Which events each step can add *)

Lemma logged_quiet env envelope status history new :
  logged env envelope status history new ->
  filter is_run new = [] /\ filter is_urandom new = [] /\
  filter is_urlopen new = [].
Proof.
  intros [(e & _ & ->) | [(ts & e & _ & ->) | (ts & entry & o & _ & ->)]];
    repeat split.
Qed.

Lemma dispatched_quiet env envelope history response new :
  dispatched env envelope history response new ->
  filter is_append new = [] /\ filter is_urandom new = [] /\
  filter is_urlopen new = [].
Proof.
  intros [(_ & _ & ->) | (handler & _ & _ & H)]; [repeat split|].
  cbv zeta in H.
  destruct (subprocess_run env history [handler] (json_dumps env envelope) 30)
    as [rc out | e]; [destruct (handler_response env rc out)|];
    destruct H as (_ & ->); repeat split.
Qed.

Lemma replied_quiet env original response reply_to history r new :
  replied env original response reply_to history r new ->
  filter is_run new = [] /\ filter is_append new = [] /\
  filter is_urandom new = [Urandom 16 (os_urandom env history 16)].
Proof.
  intros (ts & [(e & _ & _ & ->)
               | (reply & _ & _ & [(e & _ & ->)
                                  | (req & o & text & _ & [-> | ->])])]);
    repeat split.
Qed.

Lemma routed_quiet env envelope response type history r new :
  routed env envelope response type history r new ->
  filter is_run new = [] /\ filter is_append new = [].
Proof.
  intros [(_ & _ & ->) | [(_ & _ & ->) | (_ & reply_to & _ & H)]];
    [repeat split | repeat split |].
  apply replied_quiet in H. tauto.
Qed.

Lemma existsb_filter {A} (f : A -> bool) (l : list A) :
  existsb f l = negb (match filter f l with [] => true | _ => false end).
Proof.
  induction l as [|a l IH]; [reflexivity|]. cbn.
  destruct (f a); [reflexivity | exact IH].
Qed.

(** The reply step is entered exactly when the three conditions hold. *)
Lemma routed_attempt env envelope response type history r new :
  routed env envelope response type history r new ->
  reply_attempted new <-> reply_due envelope response type.
Proof.
  unfold reply_attempted.
  intros [(Hgate & _ & ->) | [(_ & Hno & ->) | (Hdue & reply_to & _ & H)]].
  - split; [discriminate|]. intros (Ht & Hr & _).
    rewrite Ht, Hr in Hgate. discriminate.
  - split; [discriminate|]. intros (_ & _ & H). contradiction.
  - split; [auto|]. intros _. apply replied_quiet in H as (_ & _ & H).
    rewrite existsb_filter, H. reflexivity.
Qed.

Lemma existsb_none {A} (f : A -> bool) (l : list A) :
  filter f l = [] -> existsb f l = false.
Proof. intros H. rewrite existsb_filter, H. reflexivity. Qed.

(** Without a handler the dispatcher answers [None] and touches nothing. *)
Lemma dispatch_unconfigured env envelope st :
  handler_configured env = false ->
  dispatch_to_handler env envelope st = (Return JNull, st).
Proof.
  unfold handler_configured, dispatch_to_handler.
  destruct (HANDLER env) as [handler|]; [|reflexivity].
  destruct (handler =? ""); [reflexivity | discriminate].
Qed.

Lemma routed_posted env envelope response type history r new :
  routed env envelope response type history r new ->
  reply_posted new -> reply_due envelope response type.
Proof.
  unfold reply_posted.
  intros [(_ & _ & ->) | [(_ & _ & ->) | (Hdue & _)]];
    [discriminate | discriminate | auto].
Qed.

(** Once [do_POST] has read the envelope's fields, [_send_reply] can
    build the reply to it from any response that is an object. *)
Lemma reply_envelope_returns env id_bytes ts envelope s fields :
  read_summary envelope = Return s ->
  exists reply,
    reply_envelope env id_bytes ts envelope (JDict fields) = Return reply.
Proof.
  unfold read_summary, reply_envelope. intros H.
  destruct envelope; try discriminate H.
  cbn [get rbind] in *. rbind_inv H. eexists. reflexivity.
Qed.

Lemma routed_posts env envelope s fields type history r new :
  routed env envelope (JDict fields) type history r new ->
  read_summary envelope = Return s ->
  reply_due envelope (JDict fields) type ->
  reply_posted new.
Proof.
  intros Hroute Hsum Hdue. unfold reply_posted.
  destruct Hroute as [(Hgate & _) | [(_ & Hno & _) | (_ & reply_to & Hto & ts & H)]].
  - destruct Hdue as (Ht & Hr & _). rewrite Ht, Hr in Hgate. discriminate.
  - destruct Hdue as (_ & _ & Hurl). contradiction.
  - destruct Hdue as (_ & _ & target & url & Htarget & Hurl & _).
    rewrite Hto in Htarget. injection Htarget as ->.
    cbv zeta in H.
    destruct (reply_envelope_returns env (os_urandom env history 16) ts
                envelope s fields Hsum) as (reply & Hreply).
    destruct H as [(e & He & _) | (reply' & Hreply' & _ & Hsent)];
      [congruence|].
    destruct Hsent as [(e & He & _) | (req & o & text & _ & [-> | ->])];
      [|reflexivity|reflexivity].
    unfold reply_request in He. cbn in He. rewrite Hurl in He. discriminate.
Qed.

(** C4.  [_send_reply] is entered if and only if the envelope's type is
    ["request"], the dispatcher's response counts as true (is non-empty)
    and [replyTo.url] is present: for the reply step on its own, and for a
    whole [do_POST] on a decoded request, where [response] is what the
    dispatcher returned.  There, a reply is posted only under the three
    conditions, and under them it is posted whenever the response is an
    object.  When no handler is configured the dispatcher returns [None]
    without running anything, and no [do_POST] enters [_send_reply] or
    posts a reply, whatever the request holds. *)
Theorem reply_attempted_iff_due env :
  (forall envelope response type st r st',
     send_response_back env envelope response type st = (r, st') ->
     exists new,
       added st st' new /\
       (reply_attempted new <-> reply_due envelope response type)) /\
  (forall incoming envelope s st,
     decodes env incoming envelope s ->
     exists response history run_new new,
       dispatched env envelope history response run_new /\
       trace (snd (do_POST env incoming st)) = (new ++ trace st)%list /\
       (reply_attempted new <-> reply_due envelope response (msg_type s)) /\
       (reply_posted new -> reply_due envelope response (msg_type s)) /\
       (reply_due envelope response (msg_type s) ->
        (exists fields, response = JDict fields) -> reply_posted new)) /\
  (handler_configured env = false ->
     (forall envelope st,
        dispatch_to_handler env envelope st = (Return JNull, st)) /\
     (forall incoming st,
        exists new,
          trace (snd (do_POST env incoming st)) = (new ++ trace st)%list /\
          ~ reply_attempted new /\ ~ reply_posted new)).
Proof.
  split; [|split].
  - intros envelope response type st r st' Hrun.
    destruct (send_response_back_cases env envelope response type st)
      as (r0 & st0 & new & Hrun0 & Hadd & Hroute).
    rewrite Hrun in Hrun0. injection Hrun0 as <- <-.
    exists new. split; [assumption|]. eapply routed_attempt; eassumption.
  - intros incoming envelope s st Hdec.
    destruct (do_POST_decoded env incoming envelope s st Hdec)
      as (line & log_new & response & run_new & r & reply_new & st' &
          _ & Hrun & _ & Htrace & Hlog & Hdisp & Hroute).
    exists response, (log_new ++ Stdout line :: trace st)%list, run_new,
      (reply_new ++ run_new ++ log_new ++ [Stdout line])%list.
    split; [assumption|]. rewrite Hrun. cbn [snd]. split.
    { rewrite Htrace, <- !app_assoc. reflexivity. }
    pose proof (routed_attempt _ _ _ _ _ _ _ Hroute) as Hiff.
    pose proof (routed_posted _ _ _ _ _ _ _ Hroute) as Honly.
    destruct Hdec as (request_body & data & line' & _ & _ & _ & Hsum & _).
    apply logged_quiet in Hlog as (_ & Hl & Hlu).
    apply dispatched_quiet in Hdisp as (_ & Hd & Hdu).
    assert (Hsame : existsb is_urandom
                      (reply_new ++ run_new ++ log_new ++ [Stdout line])%list
                    = existsb is_urandom reply_new).
    { rewrite !existsb_app, (existsb_none _ _ Hl), (existsb_none _ _ Hd).
      cbn. rewrite !orb_false_r. reflexivity. }
    assert (Hsame' : existsb is_urlopen
                       (reply_new ++ run_new ++ log_new ++ [Stdout line])%list
                     = existsb is_urlopen reply_new).
    { rewrite !existsb_app, (existsb_none _ _ Hlu), (existsb_none _ _ Hdu).
      cbn. rewrite !orb_false_r. reflexivity. }
    unfold reply_attempted, reply_posted in *. rewrite Hsame, Hsame'.
    split; [exact Hiff|]. split; [exact Honly|].
    intros Hdue (fields & ->).
    eapply routed_posts; eassumption.
  - intros Hnone. split; [intros; apply dispatch_unconfigured; assumption|].
    intros incoming st.
    destruct (do_POST_classes env incoming)
      as [(request_body & Hread & Hbad) | [(Hnot & Hno) | (envelope & s & Hdec)]].
    + rewrite (invalid_json_short env incoming request_body st Hread Hbad).
      exists []. repeat split; discriminate.
    + destruct (do_POST_undecoded env incoming st Hnot Hno) as (e & ->).
      exists []. repeat split; discriminate.
    + destruct (do_POST_decoded env incoming envelope s st Hdec)
        as (line & log_new & response & run_new & r & reply_new & st' &
            _ & Hrun & _ & Htrace & Hlog & Hdisp & Hroute).
      rewrite Hrun. cbn [snd].
      destruct Hdisp as [(_ & -> & ->) | (handler & _ & Hyes & _)];
        [|congruence].
      destruct Hroute as [(_ & _ & ->) | [(Hgate & _) | ((_ & Hresp & _) & _)]];
        [|discriminate|discriminate].
      exists (log_new ++ [Stdout line])%list.
      split. { rewrite Htrace, <- app_assoc. reflexivity. }
      apply logged_quiet in Hlog as (_ & Hl & Hu).
      unfold reply_attempted, reply_posted. rewrite !existsb_app.
      rewrite (existsb_none _ _ Hl), (existsb_none _ _ Hu). cbn.
      split; discriminate.
Qed.

Lemma witness_reply_attempted_iff_due :
  (handler_configured Demo.inbox_mode = false /\
   dispatch_to_handler Demo.inbox_mode (JDict []) init = (Return JNull, init)) /\
  (let env := Demo.with_handler 0 (q "{'body': 'ok'}") in
   let incoming :=
     Demo.post (q "{'message': {'type': 'request', 'replyTo': {'url': 'http://a/hook'}}}") in
   let envelope :=
     JDict [("type", JStr "request");
            ("replyTo", JDict [("url", JStr "http://a/hook")])] in
   exists response history run_new new,
     dispatched env envelope history response run_new /\
     trace (snd (do_POST env incoming init)) = (new ++ trace init)%list /\
     (reply_attempted new <-> reply_due envelope response (JStr "request")) /\
     (reply_posted new -> reply_due envelope response (JStr "request")) /\
     (reply_due envelope response (JStr "request") ->
      (exists fields, response = JDict fields) -> reply_posted new)).
Proof.
  split.
  - split; [reflexivity|].
    apply (proj2 (proj2 (reply_attempted_iff_due Demo.inbox_mode)) eq_refl).
  - cbv zeta.
    apply (proj1 (proj2 (reply_attempted_iff_due
                           (Demo.with_handler 0 (q "{'body': 'ok'}"))))
             (Demo.post (q "{'message': {'type': 'request', 'replyTo': {'url': 'http://a/hook'}}}"))
             (JDict [("type", JStr "request");
                     ("replyTo", JDict [("url", JStr "http://a/hook")])])
             {| msg_id := JStr "?"; sender := JStr "?";
                msg_type := JStr "request"; subject := JStr "";
                body_text := JStr "" |}
             init).
    eexists _, _, _. repeat split; reflexivity.
Defined.

(** *** The inbox *)

Lemma last_inbox_push inbox envelope default :
  last (inbox_push inbox envelope) default = envelope.
Proof.
  unfold inbox_push. destruct inbox as [|first rest].
  - reflexivity.
  - destruct (MAX_INBOX <? length ((first :: rest) ++ [envelope])%list)%nat.
    + cbn [app tl]. apply last_last.
    + apply last_last.
Qed.

Lemma inbox_push_below inbox envelope :
  length inbox < MAX_INBOX ->
  inbox_push inbox envelope = (inbox ++ [envelope])%list.
Proof.
  intros H. unfold inbox_push.
  destruct (Nat.ltb_spec MAX_INBOX (length (inbox ++ [envelope])%list));
    [|reflexivity].
  rewrite length_app in *. cbn in *. lia.
Qed.

Lemma inbox_push_full inbox envelope :
  MAX_INBOX <= length inbox ->
  inbox_push inbox envelope = (tl inbox ++ [envelope])%list.
Proof.
  intros H. unfold inbox_push.
  destruct (Nat.ltb_spec MAX_INBOX (length (inbox ++ [envelope])%list)).
  - destruct inbox; [cbn in H; unfold MAX_INBOX in H; lia | reflexivity].
  - rewrite length_app in *. cbn in *. lia.
Qed.

(** C6.  The receiver at a request whose [message] is a string that is
    not JSON and is nested too deep to be read, 100000 opening brackets:
    [json.loads] raises RecursionError on it, which
    [except json.JSONDecodeError] does not catch, so [do_POST] raises
    before anything is logged or stored, and no response is written.
    With the message [just saying hi] the same receiver stores the
    synthetic envelope and acknowledges. *)
Theorem deep_message_fails_the_request :
  let text := q "{'message': '" ++ Demo.deep ++ q "'}" in
  let failed := do_POST Demo.inbox_mode (Demo.post text) init in
  let fine :=
    do_POST Demo.inbox_mode (Demo.post (q "{'message': 'just saying hi'}")) init in
  json_loads Demo.inbox_mode text = Loaded (JDict [("message", JStr Demo.deep)]) /\
  json_loads Demo.inbox_mode Demo.deep
    = LoadsError (OtherError "RecursionError"
                    "maximum recursion depth exceeded while decoding a JSON array from a unicode string") /\
  failed
    = (Raise (OtherError "RecursionError"
                "maximum recursion depth exceeded while decoding a JSON array from a unicode string"),
       init) /\
  fst fine = Return (acknowledge Demo.inbox_mode (JStr "?")) /\
  message_inbox (snd fine)
    = [JDict [("payload", JDict [("body", JStr "just saying hi")])]].
Proof. cbv zeta. repeat split; vm_compute; reflexivity. Qed.

(** *** The handler *)

Lemma handler_response_blank env out :
  strip out = "" -> handler_response env 0 out = Return JNull.
Proof. intros H. unfold handler_response. rewrite H. reflexivity. Qed.

Lemma handler_response_failed env code out :
  code <> 0%Z -> handler_response env code out = Return JNull.
Proof.
  intros H. unfold handler_response.
  destruct (Z.eqb_spec code 0); [contradiction | reflexivity].
Qed.

Lemma dispatch_configured env handler envelope st :
  HANDLER env = Some handler ->
  handler_configured env = true ->
  exists response st',
    dispatch_to_handler env envelope st = (Return response, st') /\
    let input := json_dumps env envelope in
    let o := subprocess_run env (trace st) [handler] input 30 in
    match o with
    | Completed rc out =>
        match handler_response env rc out with
        | Return v => response = v /\ added st st' [Run [handler] input 30 o]
        | Raise e =>
            response = JNull /\
            added st st' [Stderr ("[MESH] Handler error: " ++ exn_str e);
                          Run [handler] input 30 o]
        end
    | NotCompleted e =>
        response = JNull /\
        added st st' [Stderr ("[MESH] Handler error: " ++ exn_str e);
                      Run [handler] input 30 o]
    end.
Proof.
  intros Hh Hc.
  destruct (dispatch_cases env envelope st)
    as (response & st' & new & Hrun & Hadd & [(Hno & _) | (h & Hh' & _ & H)]);
    [congruence|].
  rewrite Hh in Hh'. injection Hh' as <-.
  exists response, st'. split; [assumption|]. cbv zeta in *.
  destruct (subprocess_run env (trace st) [handler] (json_dumps env envelope) 30)
    as [rc out | e]; [destruct (handler_response env rc out)|];
    destruct H as (-> & ->); split; auto.
Qed.

Lemma send_response_back_none env envelope type st :
  send_response_back env envelope JNull type st = (Return tt, st).
Proof. reflexivity. Qed.

(** C9.  With a handler configured: a run that exits with 0 and prints
    nothing but white space makes the dispatcher return [None], exactly
    what it returns for a run that exits with another code or that raises;
    with [None] the reply step does nothing, whatever the envelope's type
    and [replyTo]; and a receiver whose handler always ends that way never
    enters [_send_reply] nor posts a reply. *)
Theorem blank_output_is_no_response env handler :
  HANDLER env = Some handler ->
  handler_configured env = true ->
  (forall envelope st out,
     subprocess_run env (trace st) [handler] (json_dumps env envelope) 30
       = Completed 0 out ->
     strip out = "" ->
     exists st',
       dispatch_to_handler env envelope st = (Return JNull, st') /\
       added st st' [Run [handler] (json_dumps env envelope) 30 (Completed 0 out)]) /\
  (forall envelope st code out,
     subprocess_run env (trace st) [handler] (json_dumps env envelope) 30
       = Completed code out ->
     code <> 0%Z ->
     fst (dispatch_to_handler env envelope st) = Return JNull) /\
  (forall envelope st e,
     subprocess_run env (trace st) [handler] (json_dumps env envelope) 30
       = NotCompleted e ->
     fst (dispatch_to_handler env envelope st) = Return JNull) /\
  (forall envelope type st,
     send_response_back env envelope JNull type st = (Return tt, st)) /\
  ((forall history argv input timeout,
      exists out, subprocess_run env history argv input timeout = Completed 0 out /\
                  strip out = "") ->
   forall incoming st,
     exists new,
       trace (snd (do_POST env incoming st)) = (new ++ trace st)%list /\
       ~ reply_attempted new /\ ~ reply_posted new).
Proof.
  intros Hh Hc. repeat split.
  - intros envelope st out Hrun Hblank.
    destruct (dispatch_configured env handler envelope st Hh Hc)
      as (response & st' & Hd & H).
    cbv zeta in H. rewrite Hrun, handler_response_blank in H by assumption.
    destruct H as (-> & Hadd). eauto.
  - intros envelope st code out Hrun Hcode.
    destruct (dispatch_configured env handler envelope st Hh Hc)
      as (response & st' & Hd & H).
    cbv zeta in H. rewrite Hrun, handler_response_failed in H by assumption.
    destruct H as (-> & _). rewrite Hd. reflexivity.
  - intros envelope st e Hrun.
    destruct (dispatch_configured env handler envelope st Hh Hc)
      as (response & st' & Hd & H).
    cbv zeta in H. rewrite Hrun in H. destruct H as (-> & _).
    rewrite Hd. reflexivity.
  - intros Halways incoming st.
    destruct (do_POST_classes env incoming)
      as [(request_body & Hread & Hbad) | [(Hnot & Hno) | (envelope & s & Hdec)]].
    + rewrite (invalid_json_short env incoming request_body st Hread Hbad).
      exists []. repeat split; discriminate.
    + destruct (do_POST_undecoded env incoming st Hnot Hno) as (e & ->).
      exists []. repeat split; discriminate.
    + destruct (do_POST_decoded env incoming envelope s st Hdec)
        as (line & log_new & response & run_new & r & reply_new & st' &
            _ & Hrun & _ & Htrace & Hlog & Hdisp & Hroute).
      rewrite Hrun. cbn [snd].
      assert (response = JNull) as ->.
      { destruct Hdisp as [(_ & -> & _) | (h & _ & _ & H)]; [reflexivity|].
        cbv zeta in H.
        destruct (Halways (log_new ++ Stdout line :: trace st)%list [h]
                    (json_dumps env envelope) 30%Z) as (out & Ho & Hblank).
        rewrite Ho, handler_response_blank in H by assumption.
        destruct H as (-> & _). reflexivity. }
      destruct Hroute as [(_ & _ & ->) | [(Hgate & _) | ((_ & Hresp & _) & _)]];
        [|discriminate|discriminate].
      exists (run_new ++ log_new ++ [Stdout line])%list.
      split. { rewrite Htrace, <- !app_assoc. reflexivity. }
      apply logged_quiet in Hlog as (_ & Hl & Hu).
      apply dispatched_quiet in Hdisp as (_ & Hdl & Hdu).
      unfold reply_attempted, reply_posted. rewrite !existsb_app.
      rewrite (existsb_none _ _ Hl), (existsb_none _ _ Hu),
        (existsb_none _ _ Hdl), (existsb_none _ _ Hdu). cbn.
      split; discriminate.
Qed.

Lemma witness_blank_output_is_no_response :
  let incoming :=
    Demo.post (q "{'message': {'id': 'm3', 'type': 'request', 'replyTo': {'url': 'http://a/hook'}}}") in
  exists new,
    trace (snd (do_POST (Demo.with_handler 0 "  ") incoming init))
      = (new ++ trace init)%list /\
    ~ reply_attempted new /\ ~ reply_posted new.
Proof.
  cbv zeta.
  apply (proj2 (proj2 (proj2 (proj2
           (blank_output_is_no_response (Demo.with_handler 0 "  ")
              "./handler.sh" eq_refl eq_refl))))).
  intros history argv input timeout. exists "  ". split; reflexivity.
Defined.

(** C10.  With a handler configured, every decoded POST runs the handler
    exactly once, on the serialized envelope, whatever the envelope's type
    (the type is not consulted before the reply step): the trace of the
    request holds exactly one [Run]. *)
Theorem handler_runs_once_per_decoded_request
    env handler incoming envelope s st :
  HANDLER env = Some handler ->
  handler_configured env = true ->
  decodes env incoming envelope s ->
  exists new o,
    trace (snd (do_POST env incoming st)) = (new ++ trace st)%list /\
    filter is_run new = [Run [handler] (json_dumps env envelope) 30 o] /\
    length (filter is_run new) = 1.
Proof.
  intros Hh Hc Hdec.
  destruct (do_POST_decoded env incoming envelope s st Hdec)
    as (line & log_new & response & run_new & r & reply_new & st' &
        _ & Hrun & _ & Htrace & Hlog & Hdisp & Hroute).
  rewrite Hrun. cbn [snd].
  exists (reply_new ++ run_new ++ log_new ++ [Stdout line])%list.
  apply logged_quiet in Hlog as (Hl & _).
  apply routed_quiet in Hroute as (Hr & _).
  destruct Hdisp as [(Hno & _) | (h & Hh' & _ & H)]; [congruence|].
  rewrite Hh in Hh'. injection Hh' as <-. cbv zeta in H.
  exists (subprocess_run env (log_new ++ Stdout line :: trace st)%list
            [handler] (json_dumps env envelope) 30).
  split. { rewrite Htrace, <- !app_assoc. reflexivity. }
  rewrite !filter_app, Hl, Hr. cbn [app filter is_run].
  destruct (subprocess_run env _ [handler] (json_dumps env envelope) 30)
    as [rc out | e]; [destruct (handler_response env rc out)|];
    destruct H as (_ & ->); cbn; split; reflexivity.
Qed.

Lemma witness_handler_runs_once_per_decoded_request :
  exists new o,
    trace (snd (do_POST (Demo.with_handler 1 "")
                  (Demo.post (q "{'message': 'hello'}")) init))
      = (new ++ trace init)%list /\
    filter is_run new
      = [Run ["./handler.sh"]
           (json_dumps (Demo.with_handler 1 "")
              (JDict [("payload", JDict [("body", JStr "hello")])]))
           30 o] /\
    length (filter is_run new) = 1.
Proof.
  apply (handler_runs_once_per_decoded_request (Demo.with_handler 1 "")
           "./handler.sh" (Demo.post (q "{'message': 'hello'}"))
           (JDict [("payload", JDict [("body", JStr "hello")])])
           {| msg_id := JStr "?"; sender := JStr "?"; msg_type := JStr "?";
              subject := JStr ""; body_text := JStr "hello" |}
           init eq_refl eq_refl).
  eexists _, _, _. repeat split; reflexivity.
Defined.

(** *** The reply *)

Lemma hex_digit_inj a b c d a' b' c' d' :
  hex_digit a b c d = hex_digit a' b' c' d' ->
  a = a' /\ b = b' /\ c = c' /\ d = d'.
Proof.
  destruct a, b, c, d, a', b', c', d'; cbn; intros H;
    solve [discriminate H | repeat split].
Qed.

(** Distinct byte strings have distinct hex forms. *)
Lemma hex_inj x : forall y, hex x = hex y -> x = y.
Proof.
  induction x as [|[a0 a1 a2 a3 a4 a5 a6 a7] x IH];
    intros [|[b0 b1 b2 b3 b4 b5 b6 b7] y]; cbn; intros H;
    try discriminate H; [reflexivity|].
  injection H as H1 H2 H3.
  apply hex_digit_inj in H1 as (-> & -> & -> & ->).
  apply hex_digit_inj in H2 as (-> & -> & -> & ->).
  f_equal. apply IH; assumption.
Qed.

Lemma reply_request_shape env reply reply_to req :
  reply_request env reply reply_to = Return req ->
  subscript reply_to "url" = Return (req_url req) /\
  req_data req
    = json_dumps env (JDict [("message", JStr (json_dumps env reply))]) /\
  req_method req = "POST" /\
  exists token,
    get reply_to "token" (JStr "") = Return token /\
    req_headers req = [("Content-Type", "application/json");
                       ("Authorization", "Bearer " ++ fmt env token)].
Proof.
  unfold reply_request. intros H. rbind_inv H.
  injection H as <-. cbn. repeat split. eauto.
Qed.

Lemma reply_envelope_shape env id_bytes ts original response reply :
  reply_envelope env id_bytes ts original response = Return reply ->
  exists to correlation context subject body,
    get original "from" (JStr "?") = Return to /\
    get original "id" JNull = Return correlation /\
    get original "replyContext" JNull = Return context /\
    (payload <~ get original "payload" (JDict []) ;;
     get payload "subject" (JStr "")) = Return subject /\
    get response "body" (JStr (json_dumps env response)) = Return body /\
    reply = JDict [("protocol", JStr "mesh/1.0");
                   ("id", JStr ("msg_" ++ hex id_bytes));
                   ("timestamp", JStr ts);
                   ("from", JStr (MESH_AGENT env));
                   ("to", to);
                   ("type", JStr "response");
                   ("correlationId", correlation);
                   ("replyContext", context);
                   ("payload", JDict [("subject", JStr ("Re: " ++ fmt env subject));
                                      ("body", body)])].
Proof.
  unfold reply_envelope. intros H. rbind_inv H.
  injection H as <-. do 5 eexists. repeat split; eassumption.
Qed.

(** C3.  Whenever [_send_reply] posts a reply, the posted data is the
    JSON text of an object whose [message] is the JSON text of the reply
    envelope, and the reply envelope has: [id] = ["msg_"] followed by the
    hex form of 16 bytes drawn from [os.urandom] for this reply (two
    replies share an id only if the entropy source repeats itself),
    [from] = this agent, [to] = the original sender, [type] =
    ["response"], [correlationId] = the original id, [replyContext]
    copied from the original, [payload.subject] = ["Re: "] followed by the
    original subject, and [payload.body] = the response's [body], or the
    JSON text of the whole response when it has none. *)
Theorem reply_is_correlated_and_wrapped
    env original response reply_to st r st' new req timeout o :
  _send_reply env original response reply_to st = (r, st') ->
  added st st' new ->
  In (UrlOpen req timeout o) new ->
  exists reply id_bytes subject,
    req_data req
      = json_dumps env (JDict [("message", JStr (json_dumps env reply))]) /\
    subscript reply_to "url" = Return (req_url req) /\
    id_bytes = os_urandom env (trace st) 16 /\
    In (Urandom 16 id_bytes) new /\
    get reply "id" JNull = Return (JStr ("msg_" ++ hex id_bytes)) /\
    (forall other, hex other = hex id_bytes -> other = id_bytes) /\
    get reply "from" JNull = Return (JStr (MESH_AGENT env)) /\
    get reply "to" JNull = get original "from" (JStr "?") /\
    get reply "type" JNull = Return (JStr "response") /\
    get reply "correlationId" (JStr "absent") = get original "id" JNull /\
    get reply "replyContext" (JStr "absent")
      = get original "replyContext" JNull /\
    (payload <~ get original "payload" (JDict []) ;;
     get payload "subject" (JStr "")) = Return subject /\
    (payload <~ get reply "payload" JNull ;; get payload "subject" JNull)
      = Return (JStr ("Re: " ++ fmt env subject)) /\
    (forall text, subject = JStr text ->
                  "Re: " ++ fmt env subject = "Re: " ++ text) /\
    (payload <~ get reply "payload" JNull ;; get payload "body" JNull)
      = get response "body" (JStr (json_dumps env response)).
Proof.
  intros Hrun (_ & Htrace) Hin.
  destruct (send_reply_cases env original response reply_to st)
    as (r0 & st0 & new0 & Hrun0 & (_ & Htrace0) & ts & Hcases).
  rewrite Hrun in Hrun0. injection Hrun0 as <- <-.
  rewrite Htrace in Htrace0. apply app_inv_tail in Htrace0. subst new0.
  cbv zeta in Hcases.
  destruct Hcases as [(e & _ & _ & ->) | (reply & Hreply & _ & Hsent)].
  { cbn in Hin. intuition discriminate. }
  destruct Hsent as [(e & _ & ->) | (req0 & o0 & text & Hreq & Hnew)].
  { cbn in Hin. intuition discriminate. }
  assert (req0 = req) as ->.
  { destruct Hnew as [-> | ->]; cbn in Hin;
      destruct Hin as [H | [H | [H | [H | []]]]]; try discriminate H;
      injection H as -> _ _; reflexivity. }
  apply reply_request_shape in Hreq as (Hurl & Hdata & _).
  apply reply_envelope_shape in Hreply
      as (to & correlation & context & subject & body &
          Hto & Hid & Hctx & Hsubj & Hbody & ->).
  eexists _, (os_urandom env (trace st) 16), subject.
  split; [exact Hdata|].
  rewrite Hto, Hid, Hctx, Hbody.
  repeat split; try assumption; try reflexivity.
  - destruct Hnew as [-> | ->]; cbn; auto.
  - intros other H. symmetry. apply hex_inj. symmetry. assumption.
  - intros text' ->. reflexivity.
Qed.

Lemma witness_reply_is_correlated_and_wrapped :
  let env := Demo.with_handler 0 (q "{'body': 'ok'}") in
  let original := JDict [("id", JStr "m2"); ("from", JStr "a");
                         ("type", JStr "request");
                         ("payload", JDict [("subject", JStr "status")])] in
  let reply_to := JDict [("url", JStr "http://a/hook"); ("token", JStr "t")] in
  let response := JDict [("body", JStr "ok")] in
  exists req reply,
    In (UrlOpen req 10 None)
       (trace (snd (_send_reply env original response reply_to init))) /\
    req_data req
      = json_dumps env (JDict [("message", JStr (json_dumps env reply))]) /\
    get reply "correlationId" (JStr "absent") = Return (JStr "m2") /\
    (payload <~ get reply "payload" JNull ;; get payload "subject" JNull)
      = Return (JStr "Re: status") /\
    (payload <~ get reply "payload" JNull ;; get payload "body" JNull)
      = Return (JStr "ok").
Proof.
  intros env original reply_to response.
  pose (run := _send_reply env original response reply_to init).
  pose (req := match nth 1 (trace (snd run)) (Clock "") with
               | UrlOpen sent _ _ => sent
               | _ => {| req_url := JNull; req_data := ""; req_headers := [];
                         req_method := "" |}
               end).
  assert (Hrun : _send_reply env original response reply_to init
                 = (fst run, snd run)) by apply surjective_pairing.
  assert (Hadd : added init (snd run) (trace (snd run)))
    by (split; vm_compute; reflexivity).
  assert (Hin : In (UrlOpen req 10 None) (trace (snd run)))
    by (vm_compute; right; left; reflexivity).
  destruct (reply_is_correlated_and_wrapped env original response reply_to
              init (fst run) (snd run) _ req 10%Z None Hrun Hadd Hin)
    as (reply & id_bytes & subject & Hdata & _ & _ & _ & _ & _ & _ & _ & _ &
        Hcorr & _ & Hsubj & Hre & _ & Hbody).
  exists req, reply. split; [exact Hin|]. split; [exact Hdata|].
  split; [exact Hcorr|]. split; [|exact Hbody].
  rewrite Hre. cbn in Hsubj. injection Hsubj as <-. reflexivity.
Defined.

(** *** The inbox over a run of the server *)

Lemma inbox_push_bound inbox envelope :
  length inbox <= MAX_INBOX ->
  length (inbox_push inbox envelope) <= MAX_INBOX.
Proof.
  intros H. unfold inbox_push.
  destruct (Nat.ltb_spec MAX_INBOX (length (inbox ++ [envelope])%list)) as [Hlt|Hle];
    [|exact Hle].
  rewrite length_app in Hlt. cbn in Hlt.
  destruct inbox as [|first rest]; cbn in *; [lia|].
  rewrite length_app. cbn. lia.
Qed.

Lemma fold_inbox_push envelopes :
  forall inbox,
    length inbox <= MAX_INBOX ->
    fold_left inbox_push envelopes inbox
    = skipn (length (inbox ++ envelopes)%list - MAX_INBOX) (inbox ++ envelopes)%list.
Proof.
  induction envelopes as [|e rest IH]; intros inbox H.
  - rewrite app_nil_r. replace (length inbox - MAX_INBOX) with 0 by lia.
    reflexivity.
  - cbn [fold_left]. rewrite IH by (apply inbox_push_bound; assumption).
    destruct (Nat.eq_dec (length inbox) MAX_INBOX) as [Hfull | Hroom].
    + rewrite inbox_push_full by lia.
      destruct inbox as [|first inbox]; [discriminate Hfull|].
      cbn [tl app]. rewrite <- app_assoc. cbn [app].
      set (kept := (inbox ++ e :: rest)%list).
      assert (Hkept : MAX_INBOX <= length kept).
      { subst kept. rewrite length_app. cbn [length] in *. lia. }
      cbn [length].
      replace (S (length kept) - MAX_INBOX) with (S (length kept - MAX_INBOX))
        by lia.
      reflexivity.
    + rewrite inbox_push_below by lia.
      rewrite <- app_assoc. reflexivity.
Qed.

Lemma do_GET_inbox env path st : snd (do_GET env path st) = st.
Proof.
  unfold do_GET. destruct (path =? "/inbox"); [reflexivity|].
  destruct (path =? "/health"); reflexivity.
Qed.

Lemma do_POST_inbox env incoming envelope s st :
  decodes env incoming envelope s ->
  message_inbox (snd (do_POST env incoming st))
  = inbox_push (message_inbox st) envelope.
Proof.
  intros Hdec.
  destruct (do_POST_decoded env incoming envelope s st Hdec)
    as (line & log_new & response & run_new & r & reply_new & st' &
        _ & Hrun & Hinbox & _).
  rewrite Hrun. exact Hinbox.
Qed.

Lemma handle_inbox_bound env request st :
  length (message_inbox st) <= MAX_INBOX ->
  length (message_inbox (snd (handle env request st))) <= MAX_INBOX.
Proof.
  intros H. destruct request as [incoming | path]; cbn [handle].
  - destruct (do_POST_classes env incoming)
      as [(request_body & Hread & Hbad) | [(Hnot & Hno) | (envelope & s & Hdec)]].
    + rewrite (invalid_json_short env incoming request_body st Hread Hbad).
      exact H.
    + destruct (do_POST_undecoded env incoming st Hnot Hno) as (e & ->).
      exact H.
    + rewrite (do_POST_inbox _ _ _ _ _ Hdec). apply inbox_push_bound, H.
  - rewrite do_GET_inbox. exact H.
Qed.

Lemma serve_inbox_bound env requests :
  forall st,
    length (message_inbox st) <= MAX_INBOX ->
    length (message_inbox (serve env requests st)) <= MAX_INBOX.
Proof.
  induction requests as [|request rest IH]; intros st H; [exact H|].
  cbn [serve fold_left]. apply IH, handle_inbox_bound, H.
Qed.

Lemma serve_posts env posts envelopes :
  Forall2 (fun b e => exists s, decodes env b e s) posts envelopes ->
  forall st,
    message_inbox (serve env (map POST posts) st)
    = fold_left inbox_push envelopes (message_inbox st).
Proof.
  induction 1 as [|b e bodies es (s & Hdec) _ IH]; intros st; [reflexivity|].
  cbn [map serve fold_left handle]. unfold serve in IH. rewrite IH.
  rewrite (do_POST_inbox _ _ _ _ _ Hdec). reflexivity.
Qed.

(** C5.  The inbox holds at most [MAX_INBOX] = 100 envelopes after any
    sequence of requests; a decoded POST appends its envelope, alone, at
    the end, and when the inbox was full it drops the oldest entry; so
    after any sequence of decoded POSTs the inbox holds the last 100
    envelopes in arrival order, and after 101 of them the first one is
    gone and the other 100 are there in order. *)
Theorem inbox_is_bounded_fifo env :
  MAX_INBOX = 100 /\
  (forall requests,
     length (message_inbox (serve env requests init)) <= MAX_INBOX) /\
  (forall incoming envelope s st,
     decodes env incoming envelope s ->
     let inbox := message_inbox st in
     let inbox' := message_inbox (snd (do_POST env incoming st)) in
     (length inbox < MAX_INBOX -> inbox' = inbox ++ [envelope]) /\
     (length inbox = MAX_INBOX -> inbox' = tl inbox ++ [envelope]))%list /\
  (forall posts envelopes,
     Forall2 (fun b e => exists s, decodes env b e s) posts envelopes ->
     message_inbox (serve env (map POST posts) init)
     = skipn (length envelopes - MAX_INBOX) envelopes) /\
  (forall posts first rest,
     Forall2 (fun b e => exists s, decodes env b e s) posts (first :: rest) ->
     length rest = MAX_INBOX ->
     message_inbox (serve env (map POST posts) init) = rest /\
     (NoDup (first :: rest) ->
      ~ In first (message_inbox (serve env (map POST posts) init)))).
Proof.
  split; [reflexivity|]. split.
  { intros requests. apply serve_inbox_bound. cbn. lia. }
  split.
  { intros incoming envelope s st Hdec inbox inbox'. subst inbox inbox'.
    rewrite (do_POST_inbox _ _ _ _ _ Hdec). split; intros H.
    - apply inbox_push_below, H.
    - apply inbox_push_full. lia. }
  assert (Hlast : forall posts envelopes,
             Forall2 (fun b e => exists s, decodes env b e s) posts envelopes ->
             message_inbox (serve env (map POST posts) init)
             = skipn (length envelopes - MAX_INBOX) envelopes).
  { intros posts envelopes H.
    rewrite (serve_posts _ _ _ H). cbn [init message_inbox].
    rewrite fold_inbox_push by (cbn; lia). reflexivity. }
  split; [exact Hlast|].
  intros posts first rest H Hlen.
  rewrite (Hlast _ _ H). cbn [length].
  replace (S (length rest) - MAX_INBOX) with 1 by lia.
  cbn [skipn]. split; [reflexivity|].
  intros Hnodup. inversion Hnodup; assumption.
Qed.

Lemma witness_inbox_is_bounded_fifo :
  message_inbox
    (serve Demo.inbox_mode (map POST (map Demo.numbered (seq 0 101))) init)
  = map Demo.numbered_envelope (seq 1 100).
Proof.
  apply (proj2 (proj2 (proj2 (proj2 (inbox_is_bounded_fifo Demo.inbox_mode))))
           (map Demo.numbered (seq 0 101))
           (Demo.numbered_envelope 0)
           (map Demo.numbered_envelope (seq 1 100))); [|reflexivity].
  cbv [seq map].
  repeat (apply Forall2_cons;
          [ match goal with
            | |- exists s, decodes _ (Demo.numbered ?k) _ s =>
                exists {| msg_id := JInt (Z.of_nat k); sender := JStr "?";
                          msg_type := JStr "?"; subject := JStr "";
                          body_text := JStr "" |};
                eexists _, (JDict [("message", Demo.numbered_envelope k)]), _;
                repeat split; vm_compute; reflexivity
            end
          | ]).
  apply Forall2_nil.
Defined.

(** *** The audit log *)

Lemma audit_entry_summary env ts envelope status s :
  read_summary envelope = Return s ->
  exists to,
    get envelope "to" (JStr (MESH_AGENT env)) = Return to /\
    (payload <~ get envelope "payload" (JDict []) ;;
     get payload "subject" (JStr "")) = Return (subject s) /\
    audit_entry env ts envelope status
    = Return (JDict [("ts", JStr ts); ("from", sender s); ("to", to);
                     ("type", msg_type s); ("id", msg_id s);
                     ("subject", subject s); ("status", JStr status)]).
Proof.
  unfold read_summary, audit_entry. intros H.
  destruct envelope; try discriminate H.
  cbn [get rbind] in *. rbind_inv H. injection H as <-.
  eexists. repeat split.
Qed.

Lemma length_bytes_of n c : String.length (Demo.bytes_of n c) = n.
Proof. induction n as [|n IH]; cbn; [reflexivity | rewrite IH; reflexivity]. Qed.

(** C7, as stated, fails: the subject written to the audit log is not
    cut.  A subject of 61 characters is logged whole, while the console
    line shows 60 of them; and no constant bounds the logged subject. *)
Lemma audit_subject_is_not_truncated :
  let long := Demo.bytes_of 61 "a" in
  let incoming :=
    Demo.post (q "{'message': {'payload': {'subject': '" ++ long ++ q "'}}}") in
  trace (snd (do_POST Demo.inbox_mode incoming init))
  = [Append "/home/mesh/.mesh/logs/mesh-audit.jsonl"
       (Json.dumps (JDict [("ts", JStr "2025-06-01T12:00:00.000Z");
                           ("from", JStr "?"); ("to", JStr "atlas");
                           ("type", JStr "?"); ("id", JStr "?");
                           ("subject", JStr long);
                           ("status", JStr "received")]) ++ nl)
       None;
     Clock "2025-06-01T12:00:00.000Z";
     Makedirs "/home/mesh/.mesh/logs" None;
     Stdout ("[MESH] ?" ++ arrow ++ "atlas | ? | " ++ Demo.bytes_of 60 "a")] /\
  ~ (exists bound,
       forall subject_text ts entry logged,
         audit_entry Demo.inbox_mode ts
           (JDict [("payload", JDict [("subject", JStr subject_text)])])
           "received" = Return entry ->
         get entry "subject" JNull = Return (JStr logged) ->
         String.length logged <= bound).
Proof.
  split; [vm_compute; reflexivity|].
  intros (bound & H).
  specialize (H (Demo.bytes_of (S bound) "a") "" _ _ eq_refl eq_refl).
  rewrite length_bytes_of in H. lia.
Qed.

(** C7, amended.  Every line a [do_POST] appends to the audit log is the
    JSON text, plus a newline, of an entry with exactly the fields [ts],
    [from], [to], [type], [id], [subject], [status], in that order, with
    [status] = ["received"]; its [subject] is the envelope's
    [payload.subject] as it came (or [""]), not shortened.  The subject
    is cut to its first 60 characters only in the line printed on the
    console. *)
Theorem audit_entry_on_receipt env incoming st new path text o :
  trace (snd (do_POST env incoming st)) = (new ++ trace st)%list ->
  In (Append path text o) new ->
  exists envelope s ts to shown,
    decodes env incoming envelope s /\
    path = LOG_FILE env /\
    get envelope "to" (JStr (MESH_AGENT env)) = Return to /\
    (payload <~ get envelope "payload" (JDict []) ;;
     get payload "subject" (JStr "")) = Return (subject s) /\
    text = json_dumps env
             (JDict [("ts", JStr ts); ("from", sender s); ("to", to);
                     ("type", msg_type s); ("id", msg_id s);
                     ("subject", subject s); ("status", JStr "received")])
           ++ nl /\
    slice_to 60 (subject s) = Return shown /\
    In (Stdout ("[MESH] " ++ fmt env (sender s) ++ arrow ++ MESH_AGENT env
                ++ " | " ++ fmt env (msg_type s) ++ " | " ++ fmt env shown))
       new.
Proof.
  intros Htrace Hin.
  destruct (do_POST_classes env incoming)
    as [(request_body & Hread & Hbad) | [(Hnot & Hno) | (envelope & s & Hdec)]].
  - rewrite (invalid_json_short env incoming request_body st Hread Hbad) in Htrace.
    cbn [snd] in Htrace.
    rewrite <- (app_nil_l (trace st)) in Htrace at 1.
    apply app_inv_tail in Htrace. subst new. destruct Hin.
  - destruct (do_POST_undecoded env incoming st Hnot Hno) as (e & He).
    rewrite He in Htrace. cbn [snd] in Htrace.
    rewrite <- (app_nil_l (trace st)) in Htrace at 1.
    apply app_inv_tail in Htrace. subst new. destruct Hin.
  - destruct (do_POST_decoded env incoming envelope s st Hdec)
      as (line & log_new & response & run_new & r & reply_new & st' &
          Hline & Hrun & _ & Htrace' & Hlog & Hdisp & Hroute).
    rewrite Hrun in Htrace. cbn [snd] in Htrace. rewrite Htrace' in Htrace.
    replace (reply_new ++ run_new ++ log_new ++ Stdout line :: trace st)%list
      with ((reply_new ++ run_new ++ log_new ++ [Stdout line]) ++ trace st)%list
      in Htrace by (rewrite <- !app_assoc; reflexivity).
    apply app_inv_tail in Htrace. subst new.
    apply routed_quiet in Hroute as (_ & Hr).
    apply dispatched_quiet in Hdisp as (Hd & _).
    assert (Hin' : In (Append path text o) (filter is_append log_new)).
    { assert (H : In (Append path text o)
                    (filter is_append
                       (reply_new ++ run_new ++ log_new ++ [Stdout line])%list))
        by (apply filter_In; split; [assumption | reflexivity]).
      rewrite !filter_app, Hr, Hd in H. cbn in H.
      rewrite app_nil_r in H. exact H. }
    apply filter_In in Hin' as (Hin' & _).
    destruct Hdec as (request_body & data & line' & Hread & Hloads & Hext & Hsum & Hline').
    assert (line' = line) as -> by congruence.
    destruct (audit_entry_summary env "" envelope "received" s Hsum)
      as (to & Hto & Hsubj & _).
    unfold console_line in Hline.
    destruct (slice_to 60 (subject s)) as [shown|] eqn:Hshown;
      [|discriminate Hline].
    cbn [rbind] in Hline. injection Hline as <-.
    destruct Hlog as [(e & _ & ->) | [(ts & e & _ & ->) | (ts & entry & o' & Hentry & ->)]];
      cbn in Hin'; try (intuition discriminate).
    destruct Hin' as [H | [H | [H | []]]]; try discriminate H.
    injection H as <- <- <-.
    destruct (audit_entry_summary env ts envelope "received" s Hsum)
      as (to' & Hto' & _ & Hentry').
    rewrite Hentry' in Hentry. injection Hentry as <-.
    assert (to' = to) as -> by congruence.
    exists envelope, s, ts, to, shown.
    split. { exists request_body, data,
               ("[MESH] " ++ fmt env (sender s) ++ arrow ++ MESH_AGENT env
                ++ " | " ++ fmt env (msg_type s) ++ " | " ++ fmt env shown).
             split; [assumption|]. split; [assumption|].
             split; [assumption|]. split; [assumption|].
             unfold console_line. rewrite Hshown. reflexivity. }
    repeat split; try assumption.
    rewrite !in_app_iff. right; right; right. left. reflexivity.
Qed.

Lemma witness_audit_entry_on_receipt :
  let env := Demo.inbox_mode in
  let incoming :=
    Demo.post (q "{'message': {'id': 'm1', 'from': 'a', 'to': 'b', 'type': 'notification', 'payload': {'subject': 'hi', 'body': 'hello'}}}") in
  exists text ts,
    In (Append (LOG_FILE env) text None)
       (trace (snd (do_POST env incoming init))) /\
    text = json_dumps env
             (JDict [("ts", JStr ts); ("from", JStr "a"); ("to", JStr "b");
                     ("type", JStr "notification"); ("id", JStr "m1");
                     ("subject", JStr "hi"); ("status", JStr "received")])
           ++ nl.
Proof.
  intros env incoming.
  pose (new := trace (snd (do_POST env incoming init))).
  pose (text := match nth 0 new (Clock "") with
                | Append _ written _ => written
                | _ => ""
                end).
  assert (Htrace : trace (snd (do_POST env incoming init))
                   = (new ++ trace init)%list)
    by (symmetry; apply app_nil_r).
  assert (Hin : In (Append (LOG_FILE env) text None) new)
    by (vm_compute; left; reflexivity).
  destruct (audit_entry_on_receipt env incoming init new (LOG_FILE env)
              text None Htrace Hin)
    as (envelope & s & ts & to & shown & Hdec & _ & Hto & _ & Htext & _).
  exists text, ts. split; [exact Hin|].
  destruct Hdec as (request_body & data & line & Hread & Hloads & Hext & Hsum & _).
  vm_compute in Hread. injection Hread as <-.
  vm_compute in Hloads. injection Hloads as <-.
  vm_compute in Hext. injection Hext as <-.
  vm_compute in Hsum. injection Hsum as <-.
  vm_compute in Hto. injection Hto as <-.
  exact Htext.
Defined.

(** * Further properties of the receiver *)

(** ** GET *)

(** X1.  [do_GET] never changes the process state; it answers 200 on
    [/inbox] and [/health] and 404 with an empty body on every other
    path; and the GETs of a run make no difference to the state the run
    ends in. *)
Theorem get_is_read_only env :
  (forall path st,
     exists r,
       do_GET env path st = (Return r, st) /\
       (((path = "/inbox" \/ path = "/health") /\ status r = 200)
        \/ (path <> "/inbox" /\ path <> "/health" /\
            status r = 404 /\ headers r = [] /\ body r = ""))) /\
  (forall requests st,
     serve env requests st = serve env (filter Main.is_post requests) st).
Proof.
  split.
  - intros path st. unfold do_GET.
    destruct (String.eqb_spec path "/inbox") as [-> | Hinbox].
    { eexists. split; [reflexivity|]. left. split; [left|]; reflexivity. }
    destruct (String.eqb_spec path "/health") as [-> | Hhealth].
    { eexists. split; [reflexivity|]. left. split; [right|]; reflexivity. }
    eexists. split; [reflexivity|]. right. repeat split; assumption.
  - induction requests as [|[incoming | path] rest IH]; intros st;
      [reflexivity | |].
    + cbn [filter Main.is_post serve fold_left]. apply IH.
    + cbn [filter Main.is_post serve fold_left handle].
      rewrite do_GET_inbox. apply IH.
Qed.

(** X2.  After any run from the empty state, [/health] reports as
    [inbox] and [/inbox] reports as [count] the number of envelopes
    [/inbox] lists, which is at most 100; after a run of decoded POSTs it
    is the number of POSTs, capped at 100. *)
Theorem health_reports_inbox_size env requests :
  let st := serve env requests init in
  let n := Z.of_nat (length (message_inbox st)) in
  fst (do_GET env "/health" st)
  = Return {| status := 200;
              headers := [("Content-Type", "application/json")];
              body := json_dumps env
                        (JDict [("status", JStr "ok");
                                ("agent", JStr (MESH_AGENT env));
                                ("inbox", JInt n)]) |} /\
  fst (do_GET env "/inbox" st)
  = Return {| status := 200;
              headers := [("Content-Type", "application/json")];
              body := json_dumps env
                        (JDict [("messages", JList (message_inbox st));
                                ("count", JInt n)]) |} /\
  (0 <= n <= 100)%Z /\
  (forall posts envelopes,
     requests = map POST posts ->
     Forall2 (fun b e => exists s, decodes env b e s) posts envelopes ->
     n = Z.of_nat (Nat.min (length posts) 100)).
Proof.
  intros st n. split; [reflexivity|]. split; [reflexivity|]. split.
  - subst n st.
    pose proof (serve_inbox_bound env requests init) as H.
    cbn [init message_inbox length] in H. unfold MAX_INBOX in H. lia.
  - intros posts envelopes -> Hdec. subst n st.
    rewrite (serve_posts _ _ _ Hdec). cbn [init message_inbox].
    rewrite fold_inbox_push by (cbn; lia). cbn [app].
    rewrite length_skipn. apply Forall2_length in Hdec.
    unfold MAX_INBOX. f_equal. lia.
Qed.

Lemma witness_health_reports_inbox_size :
  Z.of_nat (length (message_inbox
                      (serve Demo.inbox_mode
                         (map POST [Demo.numbered 1; Demo.numbered 2]) init)))
  = 2%Z.
Proof.
  apply (proj2 (proj2 (proj2
           (health_reports_inbox_size Demo.inbox_mode
              (map POST [Demo.numbered 1; Demo.numbered 2]))))
           [Demo.numbered 1; Demo.numbered 2]
           [Demo.numbered_envelope 1; Demo.numbered_envelope 2] eq_refl).
  repeat (apply Forall2_cons;
          [ match goal with
            | |- exists s, decodes _ (Demo.numbered ?k) _ s =>
                exists {| msg_id := JInt (Z.of_nat k); sender := JStr "?";
                          msg_type := JStr "?"; subject := JStr "";
                          body_text := JStr "" |};
                eexists _, (JDict [("message", Demo.numbered_envelope k)]), _;
                repeat split; vm_compute; reflexivity
            end
          | ]).
  apply Forall2_nil.
Defined.

(** ** The inbox *)

Lemma in_inbox_push e inbox envelope :
  In e (inbox_push inbox envelope) -> e = envelope \/ In e inbox.
Proof.
  unfold inbox_push.
  assert (Happ : In e (inbox ++ [envelope])%list -> e = envelope \/ In e inbox).
  { intros H. apply in_app_or in H as [H | [H | []]]; auto. }
  destruct (MAX_INBOX <? length (inbox ++ [envelope])%list)%nat; [|exact Happ].
  intros H. apply Happ.
  destruct (inbox ++ [envelope])%list; [destruct H | right; exact H].
Qed.

Lemma in_inbox_after_handle env request st e :
  In e (message_inbox (snd (handle env request st))) ->
  In e (message_inbox st)
  \/ exists incoming s,
       request = POST incoming /\ decodes env incoming e s.
Proof.
  destruct request as [incoming | path]; cbn [handle].
  - destruct (do_POST_classes env incoming)
      as [(request_body & Hread & Hbad) | [(Hnot & Hno) | (envelope & s & Hdec)]].
    + rewrite (invalid_json_short env incoming request_body st Hread Hbad). auto.
    + destruct (do_POST_undecoded env incoming st Hnot Hno) as (x & ->).
      auto.
    + rewrite (do_POST_inbox _ _ _ _ _ Hdec). intros H.
      apply in_inbox_push in H as [-> | H]; [right | left; exact H].
      exists incoming, s. split; [reflexivity | exact Hdec].
  - rewrite do_GET_inbox. auto.
Qed.

(** X3.  The inbox never holds anything but received envelopes: every
    entry of the inbox after a run is the envelope decoded from the body
    of one of the run's POSTs. *)
Theorem inbox_holds_only_received_envelopes env requests e :
  In e (message_inbox (serve env requests init)) ->
  exists incoming s,
    In (POST incoming) requests /\ decodes env incoming e s.
Proof.
  assert (H : forall st,
             In e (message_inbox (serve env requests st)) ->
             In e (message_inbox st)
             \/ exists incoming s,
                  In (POST incoming) requests /\
                  decodes env incoming e s).
  { induction requests as [|request rest IH]; intros st Hin; [left; exact Hin|].
    cbn [serve fold_left] in Hin. apply IH in Hin as [Hin | (b & s & Hb & Hdec)].
    - apply in_inbox_after_handle in Hin as [Hin | (b & s & -> & Hdec)];
        [left; exact Hin | right].
      exists b, s. split; [left; reflexivity | exact Hdec].
    - right. exists b, s. split; [right; exact Hb | exact Hdec]. }
  intros Hin. apply H in Hin as [[] | Hin]. exact Hin.
Qed.

Lemma witness_inbox_holds_only_received_envelopes :
  exists incoming s,
    In (POST incoming) [GET "/inbox"; POST (Demo.numbered 7)] /\
    decodes Demo.inbox_mode incoming (Demo.numbered_envelope 7) s.
Proof.
  apply (inbox_holds_only_received_envelopes Demo.inbox_mode
           [GET "/inbox"; POST (Demo.numbered 7)] (Demo.numbered_envelope 7)).
  vm_compute. left. reflexivity.
Defined.

(** ** The audit log *)

(** X4.  [log_message] never raises and never touches the inbox,
    whatever the file system answers and whatever the envelope is.  It
    tries to append at most once, and not at all when the log directory
    cannot be made or the envelope is not an object.  When the directory
    is there and the envelope's fields can be read it tries exactly once:
    it asks the file system to append to [LOG_FILE] the JSON text of the
    entry and a newline, and the event records the file system's answer.
    The line is in the log when that answer is [None]; a refused append
    is dropped like every other failure, and nothing is written. *)
Theorem audit_failure_is_absorbed env envelope status st :
  exists st' new,
    log_message env envelope status st = (Return tt, st') /\
    added st st' new /\
    length (filter is_append new) <= 1 /\
    (os_makedirs env (trace st) (LOG_DIR env) <> None ->
     filter is_append new = []) /\
    ((forall fields, envelope <> JDict fields) ->
     filter is_append new = []) /\
    (forall s,
       os_makedirs env (trace st) (LOG_DIR env) = None ->
       read_summary envelope = Return s ->
       let made := Makedirs (LOG_DIR env) None in
       let ts := now_utc env (made :: trace st) in
       exists entry,
         audit_entry env ts envelope status = Return entry /\
         let text := json_dumps env entry ++ nl in
         new = [Append (LOG_FILE env) text
                  (file_append env (Clock ts :: made :: trace st) (LOG_FILE env) text);
                Clock ts; made]).
Proof.
  unfold log_message, try_except, bind, makedirs, clock, append_file, emit,
    outcome, lift, ret, throw, added; cbn.
  destruct (os_makedirs env (trace st) (LOG_DIR env)) eqn:Hmk; cbn.
  { eexists _, [_]. split; [reflexivity|]. split; [split; reflexivity|].
    cbn. split; [lia|]. split; [reflexivity|]. split; [reflexivity|].
    intros s H. discriminate H. }
  destruct (audit_entry env _ envelope status) as [entry | e] eqn:Hentry; cbn.
  2:{ eexists _, [_; _]. split; [reflexivity|]. split; [split; reflexivity|].
      cbn. split; [lia|]. split; [reflexivity|]. split; [reflexivity|].
      intros s _ Hsum.
      destruct (audit_entry_summary env
                  (now_utc env (Makedirs (LOG_DIR env) None :: trace st))
                  envelope status s Hsum) as (to & _ & _ & H).
      congruence. }
  assert (Hshape : (forall fields, envelope <> JDict fields) -> False).
  { intros Hshape. unfold audit_entry in Hentry.
    destruct envelope; try discriminate Hentry. eapply Hshape. reflexivity. }
  match goal with
  | |- context [file_append ?e ?t ?p ?x] => destruct (file_append e t p x) eqn:Hap
  end; cbn;
    (eexists _, [_; _; _]; split; [reflexivity|]; split; [split; reflexivity|];
     cbn; split; [lia|]; split; [congruence|];
     split; [intros H; destruct (Hshape H)|];
     intros s _ _; exists entry; split; [reflexivity|];
     cbn; rewrite Hap; reflexivity).
Qed.

Lemma witness_audit_failure_is_absorbed :
  exists st' entry,
    log_message Demo.inbox_mode (Demo.numbered_envelope 1) "received" init
      = (Return tt, st') /\
    trace st'
    = [Append (LOG_FILE Demo.inbox_mode) (json_dumps Demo.inbox_mode entry ++ nl) None;
       Clock "2025-06-01T12:00:00.000Z";
       Makedirs (LOG_DIR Demo.inbox_mode) None].
Proof.
  destruct (audit_failure_is_absorbed Demo.inbox_mode (Demo.numbered_envelope 1)
              "received" init)
    as (st' & new & Hrun & (_ & Htrace) & _ & _ & _ & Hone).
  destruct (Hone {| msg_id := JInt 1; sender := JStr "?"; msg_type := JStr "?";
                    subject := JStr ""; body_text := JStr "" |}
              eq_refl eq_refl) as (entry & _ & Hnew).
  exists st', entry. split; [exact Hrun|].
  rewrite Htrace, Hnew. reflexivity.
Defined.

(** ** Replies *)

Lemma reply_request_raises env reply reply_to e :
  reply_request env reply reply_to = Raise e ->
  subscript reply_to "url" = Raise e.
Proof.
  unfold reply_request. destruct reply_to as [|b|n|f|t|l|fields]; cbn;
    [intros H; injection H as <-; reflexivity .. |].
  destruct (lookup "url" fields); cbn;
    [discriminate | intros H; injection H as <-; reflexivity].
Qed.

(** For an envelope whose fields could be read and a response that is an
    object, [_send_reply] returns. *)
Lemma send_reply_returns env original s fields reply_to st :
  read_summary original = Return s ->
  exists st',
    _send_reply env original (JDict fields) reply_to st = (Return tt, st').
Proof.
  intros Hsum.
  destruct (send_reply_cases env original (JDict fields) reply_to st)
    as (r & st' & new & Hrun & _ & ts & H).
  cbv zeta in H. exists st'. rewrite Hrun. f_equal.
  destruct H as [(e & He & _) | (reply & _ & -> & _)]; [|reflexivity].
  destruct (reply_envelope_returns env (os_urandom env (trace st) 16) ts
              original s fields Hsum) as (reply & Hreply).
  congruence.
Qed.

(** X5.  [_send_reply], called for an envelope whose fields [do_POST]
    could read and with a response that is an object, never raises: a
    delivery that fails, and a [replyTo] without a usable [url], are
    reported on stderr and dropped.  It draws one id, opens at most one
    connection, and its last act is one line: "Reply sent" on stdout
    after a delivery, "Reply failed" with the error on stderr otherwise. *)
Theorem delivery_failure_is_absorbed env original s fields reply_to st :
  read_summary original = Return s ->
  exists st' line new,
    _send_reply env original (JDict fields) reply_to st = (Return tt, st') /\
    added st st' (line :: new) /\
    length (filter is_urandom new) = 1 /\
    length (filter is_urlopen new) <= 1 /\
    ((exists req sender,
        In (UrlOpen req 10 None) new /\
        get original "from" JNull = Return sender /\
        line = Stdout ("[MESH] Reply sent to " ++ fmt env sender))
     \/ (exists req e,
           In (UrlOpen req 10 (Some e)) new /\
           line = Stderr ("[MESH] Reply failed: " ++ exn_str e))
     \/ (exists e,
           subscript reply_to "url" = Raise e /\
           filter is_urlopen new = [] /\
           line = Stderr ("[MESH] Reply failed: " ++ exn_str e))).
Proof.
  intros Hsum.
  destruct (reply_envelope_returns env (os_urandom env (trace st) 16)
              (now_utc env (Urandom 16 (os_urandom env (trace st) 16) :: trace st))
              original s fields Hsum) as (reply & Hreply).
  assert (Hfrom : exists sender, get original "from" JNull = Return sender).
  { unfold read_summary in Hsum. destruct original; try discriminate Hsum.
    eexists. reflexivity. }
  destruct Hfrom as (sender & Hfrom).
  unfold _send_reply, added, try_except, bind, urandom, clock, http_open,
    print_out, print_err, emit, outcome, lift, ret, throw; cbn.
  rewrite Hreply. cbn.
  destruct (reply_request env reply reply_to) as [req | e] eqn:Hreq; cbn.
  2:{ eexists _, _, [_; _]. split; [reflexivity|].
      split; [split; reflexivity|]. cbn. split; [reflexivity|]. split; [lia|].
      right; right. exists e. split; [|split; reflexivity].
      apply reply_request_raises in Hreq. exact Hreq. }
  match goal with
  | |- context [urlopen ?e ?t ?rq ?n] => destruct (urlopen e t rq n) eqn:Hopen
  end; cbn.
  - eexists _, _, [_; _; _]. split; [reflexivity|].
    split; [split; reflexivity|]. cbn. split; [reflexivity|]. split; [lia|].
    right; left. do 2 eexists. split; [left|]; reflexivity.
  - rewrite Hfrom. cbn.
    eexists _, _, [_; _; _]. split; [reflexivity|].
    split; [split; reflexivity|]. cbn. split; [reflexivity|]. split; [lia|].
    left. do 2 eexists. split; [left; reflexivity|]. split; reflexivity.
Qed.

Lemma witness_delivery_failure_is_absorbed :
  exists st' line new,
    _send_reply Demo.inbox_mode (Demo.numbered_envelope 1)
      (JDict [("body", JStr "ok")]) (JDict []) init = (Return tt, st') /\
    added init st' (line :: new).
Proof.
  destruct (delivery_failure_is_absorbed Demo.inbox_mode
              (Demo.numbered_envelope 1)
              {| msg_id := JInt 1; sender := JStr "?"; msg_type := JStr "?";
                 subject := JStr ""; body_text := JStr "" |}
              [("body", JStr "ok")] (JDict []) init eq_refl)
    as (st' & line & new & Hrun & Hadd & _).
  exists st', line, new. split; assumption.
Defined.

(** X6.  Every reply [_send_reply] posts goes to [replyTo.url] with the
    method POST, the content type [application/json], the header
    [Authorization: Bearer] followed by [replyTo.token] (nothing after
    [Bearer ] when there is no token) and a timeout of 10 seconds; and one
    call posts at most once. *)
Theorem reply_carries_bearer_token
    env original response reply_to st r st' new req timeout o :
  _send_reply env original response reply_to st = (r, st') ->
  added st st' new ->
  In (UrlOpen req timeout o) new ->
  timeout = 10%Z /\
  req_method req = "POST" /\
  subscript reply_to "url" = Return (req_url req) /\
  (exists token,
     get reply_to "token" (JStr "") = Return token /\
     req_headers req = [("Content-Type", "application/json");
                        ("Authorization", "Bearer " ++ fmt env token)]) /\
  filter is_urlopen new = [UrlOpen req timeout o].
Proof.
  intros Hrun (_ & Htrace) Hin.
  destruct (send_reply_cases env original response reply_to st)
    as (r0 & st0 & new0 & Hrun0 & (_ & Htrace0) & ts & Hcases).
  rewrite Hrun in Hrun0. injection Hrun0 as <- <-.
  rewrite Htrace in Htrace0. apply app_inv_tail in Htrace0. subst new0.
  cbv zeta in Hcases.
  destruct Hcases as [(e & _ & _ & ->) | (reply & _ & _ & Hsent)].
  { cbn in Hin. intuition discriminate. }
  destruct Hsent as [(e & _ & ->) | (req0 & o0 & text & Hreq & Hnew)].
  { cbn in Hin. intuition discriminate. }
  assert (req0 = req /\ timeout = 10%Z /\ o0 = o) as (-> & -> & ->).
  { destruct Hnew as [-> | ->]; cbn in Hin;
      destruct Hin as [H | [H | [H | [H | []]]]]; try discriminate H;
      injection H as -> -> ->; repeat split. }
  apply reply_request_shape in Hreq as (Hurl & _ & Hmethod & Hheaders).
  repeat split; try assumption.
  destruct Hnew as [-> | ->]; reflexivity.
Qed.

Lemma witness_reply_carries_bearer_token :
  let env := Demo.inbox_mode in
  let reply_to := JDict [("url", JStr "http://a/hook"); ("token", JStr "s3cret")] in
  exists req,
    In (UrlOpen req 10 None)
       (trace (snd (_send_reply env (Demo.numbered_envelope 1)
                      (JDict [("body", JStr "ok")]) reply_to init))) /\
    req_url req = JStr "http://a/hook" /\
    req_headers req = [("Content-Type", "application/json");
                       ("Authorization", "Bearer s3cret")].
Proof.
  intros env reply_to.
  pose (run := _send_reply env (Demo.numbered_envelope 1)
                 (JDict [("body", JStr "ok")]) reply_to init).
  pose (req := match nth 1 (trace (snd run)) (Clock "") with
               | UrlOpen sent _ _ => sent
               | _ => {| req_url := JNull; req_data := ""; req_headers := [];
                         req_method := "" |}
               end).
  assert (Hrun : _send_reply env (Demo.numbered_envelope 1)
                   (JDict [("body", JStr "ok")]) reply_to init
                 = (fst run, snd run)) by apply surjective_pairing.
  assert (Hadd : added init (snd run) (trace (snd run)))
    by (split; vm_compute; reflexivity).
  assert (Hin : In (UrlOpen req 10 None) (trace (snd run)))
    by (vm_compute; right; left; reflexivity).
  destruct (reply_carries_bearer_token env (Demo.numbered_envelope 1)
              (JDict [("body", JStr "ok")]) reply_to init (fst run) (snd run)
              _ req 10%Z None Hrun Hadd Hin)
    as (_ & _ & Hurl & (token & Htoken & Hheaders) & _).
  exists req. split; [exact Hin|]. split.
  - vm_compute. reflexivity.
  - rewrite Hheaders. cbn in Htoken. injection Htoken as <-. reflexivity.
Defined.

(** ** The whole request *)

(** A decoded request, step by step: what [do_POST] returns and the state
    it ends in are those of the reply step, run on the dispatcher's
    response. *)
Lemma do_POST_decoded_steps env incoming envelope s st :
  decodes env incoming envelope s ->
  exists st1 response st2,
    dispatch_to_handler env envelope st1 = (Return response, st2) /\
    dispatched env envelope (trace st1) response
      (firstn (length (trace st2) - length (trace st1)) (trace st2)) /\
    do_POST env incoming st
    = (match fst (send_response_back env envelope response (msg_type s) st2) with
       | Return _ => Return (acknowledge env (msg_id s))
       | Raise e => Raise e
       end,
       snd (send_response_back env envelope response (msg_type s) st2)).
Proof.
  intros (request_body & data & line & Hread & Hloads & Hext & Hsum & Hline).
  unfold do_POST. unfold bind at 1, lift. rewrite Hread, Hloads.
  unfold bind at 1. rewrite Hext.
  unfold bind at 1. rewrite Hsum.
  unfold bind at 1. rewrite Hline.
  unfold bind at 1, print_out, emit.
  unfold bind at 1.
  match goal with
  | |- context [log_message ?e ?v ?t ?x] =>
      destruct (log_message_cases e v t x) as (st0 & log_new & -> & _ & _)
  end.
  unfold bind at 1, store_in_inbox.
  unfold bind at 1.
  match goal with
  | |- context [dispatch_to_handler ?e ?v ?x] =>
      destruct (dispatch_cases e v x)
        as (response & st2 & run_new & Hrun & (_ & Ht) & Hdisp);
      exists x, response, st2
  end.
  rewrite Hrun. split; [reflexivity|]. split.
  - rewrite Ht, length_app, Nat.add_sub, firstn_app, Nat.sub_diag, firstn_all.
    cbn [firstn]. rewrite app_nil_r. exact Hdisp.
  - unfold bind.
    destruct (send_response_back env envelope response (msg_type s) st2)
      as [[u | e] st3]; reflexivity.
Qed.

(** With a readable envelope, a [replyTo] that is an object (or counts as
    false) and a response that is an object (or counts as false), the
    reply step returns. *)
Lemma send_response_back_returns env envelope s response type st :
  read_summary envelope = Return s ->
  (forall reply_to,
     get envelope "replyTo" (JDict []) = Return reply_to ->
     truthy reply_to = false \/ exists fields, reply_to = JDict fields) ->
  (truthy response = false \/ exists fields, response = JDict fields) ->
  exists st', send_response_back env envelope response type st = (Return tt, st').
Proof.
  intros Hsum Hto Hresp. unfold send_response_back.
  destruct (truthy response) eqn:Htruthy; cbn [andb];
    [|eexists; reflexivity].
  destruct (eq_str type "request"); [|eexists; reflexivity].
  destruct Hresp as [Hfalse | (fields & ->)]; [discriminate|].
  unfold bind, lift.
  destruct (get envelope "replyTo" (JDict [])) as [reply_to | e] eqn:Hget.
  2:{ unfold read_summary in Hsum.
      destruct envelope; try discriminate Hsum; discriminate Hget. }
  destruct (Hto reply_to eq_refl) as [Hfalse | (target & ->)].
  { rewrite Hfalse. eexists; reflexivity. }
  destruct (truthy (JDict target)); [|eexists; reflexivity].
  cbn [get].
  match goal with
  | |- context [if truthy ?url then _ else _] =>
      destruct (truthy url); [|eexists; reflexivity]
  end.
  apply (send_reply_returns env envelope s fields (JDict target) st Hsum).
Qed.

Lemma read_summary_id envelope s :
  read_summary envelope = Return s ->
  get envelope "id" (JStr "?") = Return (msg_id s) /\
  get envelope "type" (JStr "?") = Return (msg_type s).
Proof.
  unfold read_summary. intros H.
  destruct envelope; try discriminate H.
  cbn [get rbind] in *. rbind_inv H. injection H as <-. split; reflexivity.
Qed.

(** X7.  A decoded request is acknowledged with 202 and the envelope's id
    (["?"] when it has none), whatever the audit log, the handler run
    and the reply delivery do, provided [replyTo] is an object or counts
    as false and the handler's output, when it is JSON, is an object or
    counts as false. *)
Theorem acknowledged_whatever_fails env incoming envelope s st :
  decodes env incoming envelope s ->
  (forall reply_to,
     get envelope "replyTo" (JDict []) = Return reply_to ->
     truthy reply_to = false \/ exists fields, reply_to = JDict fields) ->
  (forall history argv input timeout returncode stdout response,
     subprocess_run env history argv input timeout = Completed returncode stdout ->
     handler_response env returncode stdout = Return response ->
     truthy response = false \/ exists fields, response = JDict fields) ->
  exists id,
    get envelope "id" (JStr "?") = Return id /\
    fst (do_POST env incoming st)
    = Return {| status := 202;
                headers := [("Content-Type", "application/json")];
                body := json_dumps env (JDict [("ok", JBool true); ("id", id)]) |}.
Proof.
  intros Hdec Hto Hout.
  destruct (do_POST_decoded_steps env incoming envelope s st Hdec)
    as (st1 & response & st2 & _ & Hdisp & ->).
  destruct Hdec as (request_body & data & line & _ & _ & _ & Hsum & _).
  assert (Hresp : truthy response = false \/ exists fields, response = JDict fields).
  { destruct Hdisp as [(_ & -> & _) | (handler & _ & _ & H)]; [left; reflexivity|].
    cbv zeta in H.
    destruct (subprocess_run env (trace st1) [handler] (json_dumps env envelope) 30)
      as [rc out | e] eqn:Hrun;
      [destruct (handler_response env rc out) as [v | e] eqn:Hanswer|];
      destruct H as (-> & _);
      [eapply Hout; eassumption | left; reflexivity | left; reflexivity]. }
  destruct (send_response_back_returns env envelope s response (msg_type s) st2
              Hsum Hto Hresp) as (st3 & ->).
  exists (msg_id s). split; [apply read_summary_id, Hsum | reflexivity].
Qed.

Lemma witness_acknowledged_whatever_fails :
  exists id,
    get (Demo.numbered_envelope 5) "id" (JStr "?") = Return id /\
    fst (do_POST (Demo.with_handler 0 "all done") (Demo.numbered 5) init)
    = Return {| status := 202;
                headers := [("Content-Type", "application/json")];
                body := json_dumps (Demo.with_handler 0 "all done")
                          (JDict [("ok", JBool true); ("id", id)]) |}.
Proof.
  apply (acknowledged_whatever_fails (Demo.with_handler 0 "all done")
           (Demo.numbered 5) (Demo.numbered_envelope 5)
           {| msg_id := JInt 5; sender := JStr "?"; msg_type := JStr "?";
              subject := JStr ""; body_text := JStr "" |} init).
  - eexists _, _, _. repeat split; reflexivity.
  - intros reply_to H. vm_compute in H. injection H as <-. left. reflexivity.
  - intros history argv input timeout returncode stdout response H Hanswer.
    cbn in H. injection H as <- <-.
    vm_compute in Hanswer. injection Hanswer as <-.
    right. eexists. reflexivity.
Defined.

(** ** The handler's answer *)

(** X8.  Handler output that [json.loads] rejects with
    [JSONDecodeError] travels back as the reply's body: when the handler
    exits with 0 and its output, stripped of the white space around it,
    is not empty and is rejected that way, the dispatcher's response is
    [{"body": text}], it counts as true, and every reply built from it
    has [payload.body] = the stripped text.  Output on which [json.loads]
    raises anything else (text nested too deep) gives no response: the
    dispatcher reports the error on stderr and returns [None]. *)
Theorem plain_text_output_becomes_reply_body env handler envelope st stdout :
  HANDLER env = Some handler ->
  handler_configured env = true ->
  subprocess_run env (trace st) [handler] (json_dumps env envelope) 30
    = Completed 0 stdout ->
  strip stdout <> "" ->
  let ran := Run [handler] (json_dumps env envelope) 30 (Completed 0 stdout) in
  (json_loads env (strip stdout) = JSONDecodeError ->
   let response := JDict [("body", JStr (strip stdout))] in
   (exists st',
      dispatch_to_handler env envelope st = (Return response, st') /\
      added st st' [ran]) /\
   truthy response = true /\
   (forall id_bytes ts original reply,
      reply_envelope env id_bytes ts original response = Return reply ->
      (payload <~ get reply "payload" JNull ;; get payload "body" JNull)
      = Return (JStr (strip stdout)))) /\
  (forall e,
     json_loads env (strip stdout) = LoadsError e ->
     exists st',
       dispatch_to_handler env envelope st = (Return JNull, st') /\
       added st st' [Stderr ("[MESH] Handler error: " ++ exn_str e); ran]).
Proof.
  intros Hh Hc Hrun Hblank ran.
  destruct (dispatch_configured env handler envelope st Hh Hc)
    as (answer & st' & Hd & H).
  cbv zeta in H. rewrite Hrun in H. unfold handler_response in H.
  destruct (String.eqb_spec (strip stdout) ""); [contradiction|].
  cbn [Z.eqb andb negb] in H.
  split.
  - intros Hloads response. rewrite Hloads in H. destruct H as (-> & Hadd).
    split; [eauto|].
    split. { cbn. destruct (strip stdout); [contradiction | reflexivity]. }
    intros id_bytes ts original reply Hreply.
    apply reply_envelope_shape in Hreply
        as (to & correlation & context & subject & body &
            _ & _ & _ & _ & Hbody & ->).
    cbn in Hbody. injection Hbody as <-. reflexivity.
  - intros e Hloads. rewrite Hloads in H. destruct H as (-> & Hadd). eauto.
Qed.

Lemma witness_plain_text_output_becomes_reply_body :
  (exists st',
     dispatch_to_handler (Demo.with_handler 0 "  all done  ") (JDict []) init
     = (Return (JDict [("body", JStr "all done")]), st')) /\
  (exists st',
     dispatch_to_handler (Demo.with_handler 0 (Demo.bytes_of 2000 "[")) (JDict []) init
     = (Return JNull, st') /\
     added init st'
       [Stderr "[MESH] Handler error: maximum recursion depth exceeded while decoding a JSON array from a unicode string";
        Run ["./handler.sh"] "{}" 30 (Completed 0 (Demo.bytes_of 2000 "["))]).
Proof.
  split.
  - destruct (proj1 (plain_text_output_becomes_reply_body
                       (Demo.with_handler 0 "  all done  ") "./handler.sh"
                       (JDict []) init "  all done  " eq_refl eq_refl eq_refl
                       ltac:(vm_compute; discriminate)) eq_refl)
      as ((st' & Hrun & _) & _).
    exists st'. exact Hrun.
  - apply (proj2 (plain_text_output_becomes_reply_body
                    (Demo.with_handler 0 (Demo.bytes_of 2000 "[")) "./handler.sh"
                    (JDict []) init (Demo.bytes_of 2000 "[") eq_refl eq_refl eq_refl
                    ltac:(vm_compute; discriminate))
             (OtherError "RecursionError"
                "maximum recursion depth exceeded while decoding a JSON array from a unicode string")).
    vm_compute. reflexivity.
Defined.

(** X9.  On a decoded request the receipt is recorded before the handler
    is run, and stays recorded whatever happens next, also when [do_POST]
    goes on to raise in the reply step: the envelope is in the inbox, and
    the trace of the request is, oldest first, the console line, the
    attempt to log (it always starts with [makedirs]), the handler run,
    the reply; nothing is appended to the audit log once the handler has
    started, and the handler is not run again for the reply. *)
Theorem receipt_is_recorded_before_dispatch env incoming envelope s st :
  decodes env incoming envelope s ->
  exists line log_new run_new reply_new,
    console_line env s = Return line /\
    message_inbox (snd (do_POST env incoming st))
      = inbox_push (message_inbox st) envelope /\
    trace (snd (do_POST env incoming st))
      = (reply_new ++ run_new ++ log_new ++ Stdout line :: trace st)%list /\
    (exists outcome, In (Makedirs (LOG_DIR env) outcome) log_new) /\
    filter is_run log_new = [] /\
    filter is_urlopen log_new = [] /\
    filter is_append run_new = [] /\
    filter is_urlopen run_new = [] /\
    filter is_append reply_new = [] /\
    filter is_run reply_new = [].
Proof.
  intros Hdec.
  destruct (do_POST_decoded env incoming envelope s st Hdec)
    as (line & log_new & response & run_new & r & reply_new & st' &
        Hline & Hrun & Hinbox & Htrace & Hlog & Hdisp & Hroute).
  exists line, log_new, run_new, reply_new. rewrite Hrun. cbn [snd].
  split; [exact Hline|]. split; [exact Hinbox|]. split; [exact Htrace|].
  pose proof (logged_quiet _ _ _ _ _ Hlog) as (Hl1 & _ & Hl2).
  pose proof (dispatched_quiet _ _ _ _ _ Hdisp) as (Hd1 & _ & Hd2).
  pose proof (routed_quiet _ _ _ _ _ _ _ Hroute) as (Hr1 & Hr2).
  repeat split; try assumption.
  destruct Hlog as [(e & _ & ->) | [(ts & e & _ & ->) | (ts & entry & o & _ & ->)]];
    eexists; cbn; eauto.
Qed.

Lemma witness_receipt_is_recorded_before_dispatch :
  exists line log_new run_new reply_new,
    console_line (Demo.with_handler 0 "[1]")
      {| msg_id := JInt 5; sender := JStr "?"; msg_type := JStr "?";
         subject := JStr ""; body_text := JStr "" |} = Return line /\
    trace (snd (do_POST (Demo.with_handler 0 "[1]") (Demo.numbered 5) init))
      = (reply_new ++ run_new ++ log_new ++ Stdout line :: trace init)%list.
Proof.
  destruct (receipt_is_recorded_before_dispatch (Demo.with_handler 0 "[1]")
              (Demo.numbered 5) (Demo.numbered_envelope 5)
              {| msg_id := JInt 5; sender := JStr "?"; msg_type := JStr "?";
                 subject := JStr ""; body_text := JStr "" |} init)
    as (line & log_new & run_new & reply_new & Hline & _ & Htrace & _).
  - eexists _, _, _. repeat split; reflexivity.
  - exists line, log_new, run_new, reply_new. split; assumption.
Defined.

(** ** The envelope codec *)

(** X10.  An envelope sent as a JSON string and the same envelope
    embedded as a JSON value are handled alike: when [message] is a
    string whose JSON value is [v] in one request and is [v] itself in
    another ([v] not a string), [do_POST] does the same on both. *)
Theorem encoded_and_embedded_envelopes_agree
    env incoming1 incoming2 encoded embedded fields1 fields2 text v st :
  read_body env incoming1 = Return encoded ->
  read_body env incoming2 = Return embedded ->
  json_loads env encoded = Loaded (JDict fields1) ->
  lookup "message" fields1 = Some (JStr text) ->
  json_loads env text = Loaded v ->
  json_loads env embedded = Loaded (JDict fields2) ->
  lookup "message" fields2 = Some v ->
  (forall t, v <> JStr t) ->
  do_POST env incoming1 st = do_POST env incoming2 st.
Proof.
  intros R1 R2 H1 Hm1 Ht H2 Hm2 Hv.
  assert (E1 : extract_envelope env (JDict fields1) = Return v).
  { unfold extract_envelope. cbn. rewrite Hm1, Ht. reflexivity. }
  assert (E2 : extract_envelope env (JDict fields2) = Return v).
  { unfold extract_envelope. cbn. rewrite Hm2.
    destruct v; try reflexivity. exfalso. eapply Hv. reflexivity. }
  unfold do_POST, bind, lift. rewrite R1, R2, H1, H2, E1, E2.
  reflexivity.
Qed.

Lemma witness_encoded_and_embedded_envelopes_agree :
  do_POST Demo.inbox_mode (Demo.post (q "{'message': '{\'id\': \'m1\'}'}")) init
  = do_POST Demo.inbox_mode (Demo.post (q "{'message': {'id': 'm1'}}")) init.
Proof.
  apply (encoded_and_embedded_envelopes_agree Demo.inbox_mode
           (Demo.post (q "{'message': '{\'id\': \'m1\'}'}"))
           (Demo.post (q "{'message': {'id': 'm1'}}"))
           (q "{'message': '{\'id\': \'m1\'}'}") (q "{'message': {'id': 'm1'}}")
           [("message", JStr (q "{'id': 'm1'}"))]
           [("message", JDict [("id", JStr "m1")])]
           (q "{'id': 'm1'}") (JDict [("id", JStr "m1")]) init);
    try reflexivity.
  intros t H. discriminate H.
Defined.

(** X11.  When the [message] key is missing the receiver reads the empty
    string in its place: if [json.loads] rejects the empty string (it
    does), the request is acknowledged with 202 and the id ["?"], and the
    envelope stored is [{"payload": {"body": ""}}]. *)
Theorem missing_message_is_an_empty_body env incoming request_body fields st :
  read_body env incoming = Return request_body ->
  json_loads env request_body = Loaded (JDict fields) ->
  lookup "message" fields = None ->
  json_loads env "" = JSONDecodeError ->
  let synthetic := JDict [("payload", JDict [("body", JStr "")])] in
  fst (do_POST env incoming st) = Return (acknowledge env (JStr "?")) /\
  message_inbox (snd (do_POST env incoming st))
    = inbox_push (message_inbox st) synthetic.
Proof.
  intros Hread Hloads Hmsg Hempty synthetic.
  assert (Hdec : decodes env incoming synthetic
                   {| msg_id := JStr "?"; sender := JStr "?";
                      msg_type := JStr "?"; subject := JStr "";
                      body_text := JStr "" |}).
  { eexists request_body, (JDict fields), _.
    split; [assumption|]. split; [assumption|]. split.
    - unfold extract_envelope. cbn. rewrite Hmsg, Hempty. reflexivity.
    - split; reflexivity. }
  destruct (do_POST_decoded env incoming synthetic _ st Hdec)
    as (line & log_new & response & run_new & r & reply_new & st' &
        _ & Hrun & Hinbox & _ & _ & _ & Hroute).
  cbn [msg_type msg_id] in *. rewrite Hrun. cbn [fst snd].
  assert (r = Return tt) as ->.
  { destruct Hroute as [(_ & H & _) | [(Hgate & _) | ((H & _) & _)]];
      [assumption | | discriminate].
    rewrite andb_false_r in Hgate. discriminate. }
  split; [reflexivity | exact Hinbox].
Qed.

Lemma witness_missing_message_is_an_empty_body :
  fst (do_POST Demo.inbox_mode (Demo.post (q "{'note': 1}")) init)
  = Return (acknowledge Demo.inbox_mode (JStr "?")).
Proof.
  apply (missing_message_is_an_empty_body Demo.inbox_mode
           (Demo.post (q "{'note': 1}")) (q "{'note': 1}")
           [("note", JInt 1)] init eq_refl eq_refl eq_refl eq_refl).
Defined.

(** X12.  A reply is never answered: when a request carries an envelope
    that [_send_reply] built, [do_POST] acknowledges it with the reply's
    id and does not enter [_send_reply], whatever the handler prints, so
    two receivers cannot bounce replies between them. *)
Theorem reply_is_not_answered
    env id_bytes ts original response reply incoming request_body data st :
  reply_envelope env id_bytes ts original response = Return reply ->
  read_body env incoming = Return request_body ->
  json_loads env request_body = Loaded data ->
  extract_envelope env data = Return reply ->
  exists new,
    fst (do_POST env incoming st)
      = Return (acknowledge env (JStr ("msg_" ++ hex id_bytes))) /\
    trace (snd (do_POST env incoming st)) = (new ++ trace st)%list /\
    ~ reply_attempted new /\ ~ reply_posted new.
Proof.
  intros Hreply Hread Hloads Hext.
  apply reply_envelope_shape in Hreply
      as (to & correlation & context & subject & body & _ & _ & _ & _ & _ & ->).
  set (reply := JDict _) in *.
  assert (Hdec : decodes env incoming reply
                   {| msg_id := JStr ("msg_" ++ hex id_bytes);
                      sender := JStr (MESH_AGENT env);
                      msg_type := JStr "response";
                      subject := JStr ("Re: " ++ fmt env subject);
                      body_text := body |}).
  { eexists request_body, data, _. split; [assumption|].
    split; [assumption|]. split; [assumption|]. split; reflexivity. }
  destruct (do_POST_decoded env incoming reply _ st Hdec)
    as (line & log_new & answer & run_new & r & reply_new & st' &
        _ & Hrun & _ & Htrace & Hlog & Hdisp & Hroute).
  cbn [msg_type msg_id] in *. rewrite Hrun. cbn [fst snd].
  assert (r = Return tt /\ reply_new = []) as (-> & ->).
  { destruct Hroute as [(_ & H & H') | [(Hgate & _) | ((H & _) & _)]];
      [split; assumption | | discriminate].
    rewrite andb_false_r in Hgate. discriminate. }
  exists (run_new ++ log_new ++ [Stdout line])%list.
  split; [reflexivity|].
  split. { rewrite Htrace, <- !app_assoc. reflexivity. }
  apply logged_quiet in Hlog as (_ & Hl & Hu).
  apply dispatched_quiet in Hdisp as (_ & Hdl & Hdu).
  unfold reply_attempted, reply_posted. rewrite !existsb_app.
  rewrite (existsb_none _ _ Hl), (existsb_none _ _ Hu),
    (existsb_none _ _ Hdl), (existsb_none _ _ Hdu). cbn.
  split; discriminate.
Qed.

Lemma witness_reply_is_not_answered :
  let env := Demo.with_handler 0 (q "{'body': 'pong'}") in
  let reply :=
    match reply_envelope env "" "2025-06-01T12:00:00.000Z"
            (JDict [("id", JStr "m1"); ("from", JStr "a")])
            (JDict [("body", JStr "ok")]) with
    | Return built => built
    | Raise _ => JNull
    end in
  let data := JDict [("message", JStr (Json.dumps reply))] in
  exists new,
    fst (do_POST env (Demo.post (Json.dumps data)) init)
      = Return (acknowledge env (JStr "msg_")) /\
    trace (snd (do_POST env (Demo.post (Json.dumps data)) init))
      = (new ++ trace init)%list /\
    ~ reply_attempted new /\ ~ reply_posted new.
Proof.
  intros env reply data.
  apply (reply_is_not_answered env "" "2025-06-01T12:00:00.000Z"
           (JDict [("id", JStr "m1"); ("from", JStr "a")])
           (JDict [("body", JStr "ok")]) reply (Demo.post (Json.dumps data))
           (Json.dumps data) data init);
    vm_compute; reflexivity.
Defined.

(** ** The request body *)

(** X16.  [do_POST] answers 400 exactly when the body, read and decoded,
    is text on which [json.loads] raises [JSONDecodeError]; the answer has
    the fixed error body and the process state is left as it was: nothing
    is logged, stored, run or sent.  When reading the body raises (the
    Content-Length is not a number, the bytes are not UTF-8) or
    [json.loads] raises anything else, [do_POST] raises that exception,
    again with the state as it was, and no response is written. *)
Theorem malformed_body_is_rejected_first env incoming st :
  (forall request_body,
     read_body env incoming = Return request_body ->
     json_loads env request_body = JSONDecodeError ->
     do_POST env incoming st = (Return bad_request, st) /\
     status bad_request = 400 /\
     body bad_request = q "{'error':'invalid JSON'}") /\
  (forall response,
     fst (do_POST env incoming st) = Return response ->
     status response = 400 ->
     exists request_body,
       read_body env incoming = Return request_body /\
       json_loads env request_body = JSONDecodeError) /\
  (forall e,
     read_body env incoming = Raise e ->
     do_POST env incoming st = (Raise e, st)) /\
  (forall request_body e,
     read_body env incoming = Return request_body ->
     json_loads env request_body = LoadsError e ->
     do_POST env incoming st = (Raise e, st)).
Proof.
  split; [|split; [|split]].
  - intros request_body Hread Hloads.
    split; [eapply invalid_json_short; eassumption|]. split; reflexivity.
  - intros response Hrun Hstatus.
    destruct (do_POST_classes env incoming)
      as [Hbad | [(Hnot & Hno) | (envelope & s & Hdec)]]; [exact Hbad | |].
    + destruct (do_POST_undecoded env incoming st Hnot Hno) as (e & He).
      rewrite He in Hrun. discriminate Hrun.
    + destruct (do_POST_decoded env incoming envelope s st Hdec)
        as (line & log_new & answer & run_new & r & reply_new & st' &
            _ & He & _).
      rewrite He in Hrun. cbn [fst] in Hrun.
      destruct r; [|discriminate Hrun].
      injection Hrun as <-. discriminate Hstatus.
  - intros e Hread. unfold do_POST, bind, lift. rewrite Hread. reflexivity.
  - intros request_body e Hread Hloads.
    unfold do_POST, bind, lift. rewrite Hread, Hloads. reflexivity.
Qed.

Lemma witness_malformed_body_is_rejected_first :
  do_POST Demo.inbox_mode (Demo.post "not json") init = (Return bad_request, init) /\
  (exists request_body,
     read_body Demo.inbox_mode (Demo.post "not json") = Return request_body /\
     json_loads Demo.inbox_mode request_body = JSONDecodeError) /\
  do_POST Demo.inbox_mode {| content_length := Some "ten"; rfile := "{}" |} init
  = (Raise (OtherError "ValueError" "invalid literal for int() with base 10: 'ten'"),
     init) /\
  do_POST Demo.inbox_mode (Demo.post (Demo.bytes_of 2000 "[")) init
  = (Raise (OtherError "RecursionError"
              "maximum recursion depth exceeded while decoding a JSON array from a unicode string"),
     init).
Proof.
  split; [|split; [|split]].
  - apply (proj1 (malformed_body_is_rejected_first Demo.inbox_mode
                    (Demo.post "not json") init) "not json" eq_refl eq_refl).
  - apply (proj1 (proj2 (malformed_body_is_rejected_first Demo.inbox_mode
                           (Demo.post "not json") init)) bad_request);
      reflexivity.
  - apply (proj1 (proj2 (proj2 (malformed_body_is_rejected_first Demo.inbox_mode
                                  {| content_length := Some "ten"; rfile := "{}" |}
                                  init)))).
    reflexivity.
  - apply (proj2 (proj2 (proj2 (malformed_body_is_rejected_first Demo.inbox_mode
                                  (Demo.post (Demo.bytes_of 2000 "[")) init)))
             (Demo.bytes_of 2000 "[")).
    + vm_compute. reflexivity.
    + vm_compute. reflexivity.
Defined.

(** X17.  A [message] string that [json.loads] rejects with
    [JSONDecodeError] does not fail the request: the envelope is the
    synthetic [{"payload": {"body": raw}}], [do_POST] answers 202 (with
    the id ["?"]), and the synthetic envelope is what is stored, last, in
    the inbox. *)
Theorem unparsable_message_is_kept_as_text env incoming request_body data raw st :
  read_body env incoming = Return request_body ->
  json_loads env request_body = Loaded (JDict data) ->
  lookup "message" data = Some (JStr raw) ->
  json_loads env raw = JSONDecodeError ->
  let synthetic := JDict [("payload", JDict [("body", JStr raw)])] in
  exists st',
    extract_envelope env (JDict data) = Return synthetic /\
    (payload <~ get synthetic "payload" JNull ;; get payload "body" JNull)
      = Return (JStr raw) /\
    do_POST env incoming st = (Return (acknowledge env (JStr "?")), st') /\
    status (acknowledge env (JStr "?")) = 202 /\
    message_inbox st' = inbox_push (message_inbox st) synthetic /\
    last (message_inbox st') JNull = synthetic.
Proof.
  intros Hread Hloads Hmsg Hraw synthetic.
  assert (Hext : extract_envelope env (JDict data) = Return synthetic).
  { unfold extract_envelope. cbn. rewrite Hmsg, Hraw. reflexivity. }
  assert (Hdec : decodes env incoming synthetic
                   {| msg_id := JStr "?"; sender := JStr "?";
                      msg_type := JStr "?"; subject := JStr "";
                      body_text := JStr raw |}).
  { eexists request_body, (JDict data), _. split; [assumption|].
    split; [assumption|]. split; [assumption|]. split; reflexivity. }
  destruct (do_POST_decoded env incoming synthetic _ st Hdec)
    as (line & log_new & response & run_new & r & reply_new & st' &
        _ & Hrun & Hinbox & _ & _ & _ & Hroute).
  cbn [msg_type msg_id] in *.
  assert (r = Return tt) as ->.
  { destruct Hroute as [(_ & H & _) | [(Hgate & _) | ((H & _) & _)]];
      [assumption | | discriminate].
    rewrite andb_false_r in Hgate. discriminate. }
  exists st'. repeat split; try assumption.
  rewrite Hinbox. apply last_inbox_push.
Qed.

Lemma witness_unparsable_message_is_kept_as_text :
  exists st',
    do_POST Demo.inbox_mode (Demo.post (q "{'message': 'just saying hi'}")) init
      = (Return (acknowledge Demo.inbox_mode (JStr "?")), st') /\
    message_inbox st'
      = [JDict [("payload", JDict [("body", JStr "just saying hi")])]].
Proof.
  destruct (unparsable_message_is_kept_as_text Demo.inbox_mode
              (Demo.post (q "{'message': 'just saying hi'}"))
              (q "{'message': 'just saying hi'}")
              [("message", JStr "just saying hi")] "just saying hi" init
              eq_refl eq_refl eq_refl eq_refl)
    as (st' & _ & _ & Hrun & _ & Hinbox & _).
  exists st'. split; [exact Hrun | exact Hinbox].
Defined.

(** ** The handler *)

(** X13.  [dispatch_to_handler] never raises and never touches the
    inbox; it runs the handler at most once, and not at all when none is
    configured.  A run that raises (the program cannot be started, the
    30 seconds are over) is reported in one line on stderr and gives
    [None]; a run that exits with another code than 0 gives [None] and is
    not reported. *)
Theorem handler_failure_is_dropped env envelope st :
  exists response st' new,
    dispatch_to_handler env envelope st = (Return response, st') /\
    added st st' new /\
    length (filter is_run new) <= 1 /\
    (handler_configured env = false -> response = JNull /\ new = []) /\
    (forall handler,
       HANDLER env = Some handler ->
       handler_configured env = true ->
       let input := json_dumps env envelope in
       (forall e,
          subprocess_run env (trace st) [handler] input 30 = NotCompleted e ->
          response = JNull /\
          new = [Stderr ("[MESH] Handler error: " ++ exn_str e);
                 Run [handler] input 30 (NotCompleted e)]) /\
       (forall returncode stdout,
          subprocess_run env (trace st) [handler] input 30
            = Completed returncode stdout ->
          returncode <> 0%Z ->
          response = JNull /\
          new = [Run [handler] input 30 (Completed returncode stdout)])).
Proof.
  destruct (dispatch_cases env envelope st)
    as (response & st' & new & Hrun & Hadd & Hdisp).
  exists response, st', new. split; [exact Hrun|]. split; [exact Hadd|].
  destruct Hdisp as [(Hno & -> & ->) | (handler & Hh & Hyes & H)].
  - split; [cbn; lia|]. split; [auto|].
    intros handler _ Hyes. congruence.
  - cbv zeta in H. split.
    { destruct (subprocess_run env (trace st) [handler] (json_dumps env envelope) 30)
        as [rc out | e]; [destruct (handler_response env rc out)|];
        destruct H as (_ & ->); cbn; lia. }
    split; [congruence|].
    intros handler' Hh' _. rewrite Hh in Hh'. injection Hh' as <-. cbv zeta.
    split.
    + intros e He. rewrite He in H. exact H.
    + intros returncode stdout Ho Hcode.
      rewrite Ho, handler_response_failed in H by exact Hcode.
      destruct H as (-> & ->). split; reflexivity.
Qed.

Lemma witness_handler_failure_is_dropped :
  exists st',
    dispatch_to_handler (Demo.with_handler 2 "oops") (JDict []) init
    = (Return JNull, st').
Proof.
  destruct (handler_failure_is_dropped (Demo.with_handler 2 "oops") (JDict []) init)
    as (response & st' & new & Hrun & _ & _ & _ & H).
  destruct (H "./handler.sh" eq_refl eq_refl) as (_ & Hexit).
  destruct (Hexit 2%Z "oops" eq_refl) as (-> & _); [discriminate|].
  exists st'. exact Hrun.
Defined.

(** ** Start-up *)

Import Main.

Lemma parse_port_last_flag args :
  forall p p' next n,
    parse_port args p = Return p' ->
    last args "" <> "--port" ->
    int next = Return n ->
    parse_port (args ++ ["--port"; next]) p = Return n.
Proof.
  induction args as [|arg rest IH]; intros p p' next n Hparse Hlast Hint.
  - cbn. rewrite Hint. cbn. destruct (next =? "--port"); reflexivity.
  - cbn [app parse_port] in *.
    destruct (String.eqb_spec arg "--port") as [-> | Hother].
    + destruct rest as [|following rest].
      { exfalso. apply Hlast. reflexivity. }
      cbn [app]. destruct (int following) as [q0|e]; [|discriminate Hparse].
      cbn [rbind] in *. eapply IH; eassumption.
    + destruct rest as [|following rest].
      { cbn. rewrite Hint. cbn. destruct (next =? "--port"); reflexivity. }
      eapply IH; eassumption.
Qed.

Lemma parse_port_unreadable args :
  forall p p' next e,
    parse_port args p = Return p' ->
    last args "" <> "--port" ->
    int next = Raise e ->
    parse_port (args ++ ["--port"; next]) p = Raise e.
Proof.
  induction args as [|arg rest IH]; intros p p' next e Hparse Hlast Hint.
  - cbn. rewrite Hint. reflexivity.
  - cbn [app parse_port] in *.
    destruct (String.eqb_spec arg "--port") as [-> | Hother].
    + destruct rest as [|following rest].
      { exfalso. apply Hlast. reflexivity. }
      cbn [app]. destruct (int following) as [q0|e0]; [|discriminate Hparse].
      cbn [rbind] in *. eapply IH; eassumption.
    + destruct rest as [|following rest].
      { cbn. rewrite Hint. reflexivity. }
      eapply IH; eassumption.
Qed.

Lemma parse_port_trailing_flag args :
  forall p,
    last args "" <> "--port" ->
    parse_port (args ++ ["--port"]) p = parse_port args p.
Proof.
  induction args as [|arg rest IH]; intros p Hlast; [reflexivity|].
  cbn [app parse_port].
  destruct (String.eqb_spec arg "--port") as [-> | Hother].
  - destruct rest as [|following rest].
    { exfalso. apply Hlast. reflexivity. }
    cbn [app]. destruct (int following) as [q0|e]; [|reflexivity].
    cbn [rbind]. apply IH. exact Hlast.
  - destruct rest as [|following rest]; [reflexivity|].
    apply IH. exact Hlast.
Qed.

Lemma parse_port_no_flag args :
  forall p, ~ In "--port" args -> parse_port args p = Return p.
Proof.
  induction args as [|arg rest IH]; intros p Hno; [reflexivity|].
  cbn [parse_port].
  destruct (String.eqb_spec arg "--port") as [-> | Hother].
  - exfalso. apply Hno. left. reflexivity.
  - apply IH. intros H. apply Hno. right. exact H.
Qed.

(** X14.  The port [main] listens on: 8900 when no argument is
    ["--port"]; a ["--port"] that is the last argument is ignored; and
    when the arguments end with ["--port"] and one more argument, the
    port is what [int] reads in that argument, whatever ports the earlier
    arguments set, as long as they could be read; when [int] cannot read
    it, [main] raises its ValueError before it listens. *)
Theorem port_is_the_last_flag :
  (forall args, ~ In "--port" args -> port args = Return 8900%Z) /\
  (forall args,
     last args "" <> "--port" -> port (args ++ ["--port"]) = port args) /\
  (forall args earlier next n,
     port args = Return earlier ->
     last args "" <> "--port" ->
     int next = Return n ->
     port (args ++ ["--port"; next]) = Return n) /\
  (forall args earlier next e,
     port args = Return earlier ->
     last args "" <> "--port" ->
     int next = Raise e ->
     port (args ++ ["--port"; next]) = Raise e).
Proof.
  unfold port. split; [|split; [|split]].
  - intros args H. apply parse_port_no_flag, H.
  - intros args H. apply parse_port_trailing_flag, H.
  - intros args earlier next n. apply parse_port_last_flag.
  - intros args earlier next e. apply parse_port_unreadable.
Qed.

Lemma witness_port_is_the_last_flag :
  port (["--port"; "9000"; "--verbose"] ++ ["--port"; " 9_100 "])
  = Return 9100%Z /\
  port (["--verbose"] ++ ["--port"; String (ascii_of_nat 31) "9000"])
  = Raise (OtherError "ValueError"
             "invalid literal for int() with base 10: '\x1f9000'").
Proof.
  split.
  - apply (proj1 (proj2 (proj2 port_is_the_last_flag))
             ["--port"; "9000"; "--verbose"] 9000%Z " 9_100 " 9100%Z).
    + reflexivity.
    + vm_compute. discriminate.
    + reflexivity.
  - apply (proj2 (proj2 (proj2 port_is_the_last_flag))
             ["--verbose"] 8900%Z (String (ascii_of_nat 31) "9000")).
    + reflexivity.
    + vm_compute. discriminate.
    + reflexivity.
Defined.

(** ** Receipt as a whole *)

(** X15.  Receipt is all or nothing.  A POST either leaves the process
    state exactly as it was (then it was answered 400, or [do_POST]
    raised before its first effect, which is what happens to valid JSON
    that cannot be decoded), or it was decoded, and then its envelope is
    in the inbox and its console line in the trace. *)
Theorem receipt_is_all_or_nothing env incoming st :
  (snd (do_POST env incoming st) = st /\
   (fst (do_POST env incoming st) = Return bad_request
    \/ exists e, fst (do_POST env incoming st) = Raise e) /\
   forall envelope s, ~ decodes env incoming envelope s)
  \/ (exists envelope s line,
        decodes env incoming envelope s /\
        console_line env s = Return line /\
        message_inbox (snd (do_POST env incoming st))
          = inbox_push (message_inbox st) envelope /\
        In (Stdout line) (trace (snd (do_POST env incoming st)))).
Proof.
  destruct (do_POST_classes env incoming)
    as [(request_body & Hread & Hbad) | [(Hnot & Hno) | (envelope & s & Hdec)]].
  - left. rewrite (invalid_json_short env incoming request_body st Hread Hbad).
    split; [reflexivity|]. split; [left; reflexivity|].
    intros envelope s (b & data & line & Hb & Hloads & _). congruence.
  - left. destruct (do_POST_undecoded env incoming st Hnot Hno) as (e & ->).
    split; [reflexivity|]. split; [right; exists e; reflexivity | exact Hno].
  - right.
    destruct (do_POST_decoded env incoming envelope s st Hdec)
      as (line & log_new & response & run_new & r & reply_new & st' &
          Hline & Hrun & Hinbox & Htrace & _).
    exists envelope, s, line. rewrite Hrun. cbn [snd].
    split; [exact Hdec|]. split; [exact Hline|]. split; [exact Hinbox|].
    rewrite Htrace, !in_app_iff. right; right; right. left. reflexivity.
Qed.
